(** * octave-llms: the Ollama binding of the [llms] package

    A shallow embedding of the two compiled extensions of the package,
    [src/__ollama__.cc] (the Name-Value front end of the ollama-hpp client)
    and [src/fig2base64.cc] (figure snapshot to Base64 PNG), and the
    properties of their argument handling, dispatch and error reporting.
    The copy of [__ollama__.cc] at the root of the repository is an earlier
    revision of the same function (no ['unloadModel'], ['message'],
    ['systemMessage'] or ['think']); the embedding follows the one under
    [src/].

    The Octave runtime, the ollama-hpp client, fpng and Base64 are not part
    of the package: the runtime's dynamic values are modelled by a datatype
    with the predicates the extensions call on them, and every function of
    an outside library is a parameter of the development. A run of
    [__ollama__] is a function of the history of library calls made so
    far, so that the properties can speak of which calls are made, in which
    order, and of what happens when one of them throws. *)

From Stdlib Require Import String List ZArith Lia Bool Arith Permutation.
From Stdlib Require Import Floats.PrimFloat.
Import ListNotations.

Local Open Scope string_scope.
Local Open Scope list_scope.

(* ================================================================== *)
(** * The host's dynamic values *)
(* ================================================================== *)

(** A C++ [double]. The extensions only test and forward doubles. *)
Definition double := float.

(** [octave_value]. Arrays are two-dimensional and stored column-major, as
    in the host; a character array is a row vector (a [std::string]); a
    numeric scalar is a 1x1 array. [ov_undef] is the default-constructed
    [octave_value], which is what an unassigned slot of an
    [octave_value_list] holds. *)
#[local] Set Warnings "-register-all".
Inductive octave_value : Type :=
| ov_undef
| ov_string (s : string)
| ov_bool (b : bool)
| ov_double (rows cols : nat) (data : list double)
| ov_int (rows cols : nat) (data : list Z)
| ov_cell (rows cols : nat) (elems : list octave_value)
| ov_struct (rows cols : nat) (elems : list (list (string * octave_value))).

(** A failed call of the host API raises the host's error, with a message. *)
Inductive host_result (T : Type) : Type :=
| host_ok (v : T)
| host_error (msg : string).
Arguments host_ok {T} v.
Arguments host_error {T} msg.

Definition rows (v : octave_value) : nat :=
  match v with
  | ov_undef => 0
  | ov_string s => if (String.length s =? 0)%nat then 0 else 1
  | ov_bool _ => 1
  | ov_double r _ _ | ov_int r _ _ | ov_cell r _ _ | ov_struct r _ _ => r
  end.

Definition columns (v : octave_value) : nat :=
  match v with
  | ov_undef => 0
  | ov_string s => String.length s
  | ov_bool _ => 1
  | ov_double _ c _ | ov_int _ c _ | ov_cell _ c _ | ov_struct _ c _ => c
  end.

Definition numel (v : octave_value) : nat := rows v * columns v.

(** [isempty]: some dimension is zero. *)
Definition isempty (v : octave_value) : bool := (numel v =? 0)%nat.

Definition is_string (v : octave_value) : bool :=
  match v with ov_string _ => true | _ => false end.

Definition is_scalar_type (v : octave_value) : bool :=
  match v with
  | ov_bool _ => true
  | ov_double 1 1 _ | ov_int 1 1 _ => true
  | _ => false
  end.

Definition is_double_type (v : octave_value) : bool :=
  match v with ov_double _ _ _ => true | _ => false end.

Definition iscell (v : octave_value) : bool :=
  match v with ov_cell _ _ _ => true | _ => false end.

Definition iscellstr (v : octave_value) : bool :=
  match v with ov_cell _ _ l => forallb is_string l | _ => false end.

Definition isstruct (v : octave_value) : bool :=
  match v with ov_struct _ _ _ => true | _ => false end.

(** [string_value ()] of anything but a character array is a host error. *)
Definition string_value (v : octave_value) : host_result string :=
  match v with
  | ov_string s => host_ok s
  | _ => host_error "wrong type argument"
  end.

(** A [Cell] after [cell_value ()]: its dimensions and its elements. *)
Record Cell : Type := mkCell {
  cell_rows : nat;
  cell_columns : nat;
  cell_data : list octave_value
}.

Definition cell_numel (c : Cell) : nat := (cell_rows c * cell_columns c)%nat.

Definition cell_value (v : octave_value) : host_result Cell :=
  match v with
  | ov_cell r c l => host_ok (mkCell r c l)
  | _ => host_error "wrong type argument"
  end.

(** [c(i)] and [c(i,j)]. The C++ accessors are unchecked; within the
    bounds of a well-formed cell they are the column-major element, and the
    model yields the undefined value elsewhere. *)
Definition cell_at (c : Cell) (i : nat) : octave_value :=
  nth i (cell_data c) ov_undef.

Definition cell_at2 (c : Cell) (i j : nat) : octave_value :=
  cell_at c (i + cell_rows c * j).

(** An [octave_scalar_map]: field names with their contents. *)
Definition octave_scalar_map : Type := list (string * octave_value).

(** [scalar_map_value ()]: the host refuses a structure array that does
    not have exactly one element. *)
Definition scalar_map_value (v : octave_value) : host_result octave_scalar_map :=
  match v with
  | ov_struct 1 1 (m :: _) => host_ok m
  | ov_struct _ _ _ =>
      host_error "invalid conversion of multi-dimensional struct to scalar struct"
  | _ => host_error "wrong type argument"
  end.

Fixpoint contents (key : string) (m : octave_scalar_map) : option octave_value :=
  match m with
  | [] => None
  | (k, v) :: m' => if k =? key then Some v else contents key m'
  end.

Definition isfield (key : string) (m : octave_scalar_map) : bool :=
  match contents key m with Some _ => true | None => false end.

(** The host's numeric conversions ([int_value], [double_value],
    [bool_value]) depend on its floating-point rounding and on its
    per-class conversion rules; they are parameters. *)
Record conversions : Type := mkConversions {
  int_value : octave_value -> host_result Z;
  double_value : octave_value -> host_result double;
  bool_value : octave_value -> host_result bool
}.

(* ================================================================== *)
(** * The ollama-hpp client library *)
(* ================================================================== *)

(** The names of the namespace [ollama::]. *)
Module ollama.

(** [ollama::image]: the Base64 text of an image. *)
Definition image : Type := string.
Definition images : Type := list image.

(** [ollama::message (role, content [, images])]. *)
Record message : Type := mkMessage {
  role : string;
  content : string;
  msg_images : list image
}.
Definition messages : Type := list message.

(** [ollama::options]: a JSON object, assigned to by key. *)
Inductive option_value : Type :=
| opt_int (i : Z)
| opt_double (d : double)
| opt_bool (b : bool).

Definition options : Type := list (string * option_value).

Fixpoint options_set (key : string) (v : option_value) (o : options) : options :=
  match o with
  | [] => [(key, v)]
  | (k, w) :: o' =>
      if k =? key then (k, v) :: o' else (k, w) :: options_set key v o'
  end.

(** [nlohmann::json] and [ollama::response], seen through the one method
    the binding calls on each ([dump], [as_json_string]). *)
Record json : Type := mkJson { dump : string }.
Record response : Type := mkResponse { as_json_string : string }.

(** Every entry point of the client library the binding calls. *)
Inductive call : Type :=
| is_running
| setServerURL (url : string)
| setReadTimeout (seconds : double)
| setWriteTimeout (seconds : double)
| get_version
| load_model (name : string)
| pull_model (name : string)
| copy_model (source target : string)
| delete_model (name : string)
| unload_model (name : string)
| list_models
| show_model_info (name : string)
| list_model_json
| list_running_models
| running_model_json
| image_from_file (file : string)
| image_from_base64_string (data : string)
| generate (model prompt think sysmsg : string) (o : options) (pictures : images)
| chat (model : string) (history : messages) (think sysmsg : string) (o : options).

Definition ret_ty (c : call) : Type :=
  match c with
  | is_running => bool
  | setServerURL _ | setReadTimeout _ | setWriteTimeout _ => unit
  | get_version => string
  | load_model _ | pull_model _ | copy_model _ _
  | delete_model _ | unload_model _ => bool
  | list_models | list_running_models => list string
  | show_model_info _ | list_model_json | running_model_json => json
  | image_from_file _ | image_from_base64_string _ => image
  | generate _ _ _ _ _ _ | chat _ _ _ _ _ => response
  end.

(** A library call returns or throws an [ollama::exception]. *)
Inductive result (T : Type) : Type :=
| Returns (v : T)
| Throws (what : string).
Arguments Returns {T} v.
Arguments Throws {T} what.

(** The library and the server behind it: the answer to a call may depend
    on every call made before it (the server URL and the timeouts are
    state of the library). *)
Definition library : Type := forall (history : list call) (c : call), result (ret_ty c).

End ollama.
Import ollama.

(* ================================================================== *)
(** * Computations of an extension *)
(* ================================================================== *)

(** How a run of an extension ends: with a value, with the host's
    [error (...)], or with an [ollama::exception] no handler caught. *)
Inductive outcome (A : Type) : Type :=
| Value (a : A)
| Error (msg : string)
| Exception (what : string).
Arguments Value {A} a.
Arguments Error {A} msg.
Arguments Exception {A} what.

(** A computation threads the chronological list of library calls. *)
Definition M (A : Type) : Type := list call -> outcome A * list call.

Definition ret {A} (a : A) : M A := fun h => (Value a, h).

Definition bind {A B} (m : M A) (k : A -> M B) : M B :=
  fun h =>
    match m h with
    | (Value a, h') => k a h'
    | (Error msg, h') => (Error msg, h')
    | (Exception what, h') => (Exception what, h')
    end.

Definition error {A} (msg : string) : M A := fun h => (Error msg, h).

(** [try { body } catch (ollama::exception& err) { handler (err.what ()) }].
    The host's error is a different exception class and passes through. *)
Definition try_catch {A} (body : M A) (handler : string -> M A) : M A :=
  fun h =>
    match body h with
    | (Exception what, h') => handler what h'
    | r => r
    end.

(** A host API call inside an extension. *)
Definition host {A} (r : host_result A) : M A :=
  match r with
  | host_ok v => ret v
  | host_error msg => error msg
  end.

Declare Scope ext_scope.
Delimit Scope ext_scope with ext.
Notation "x <- m ;; k" := (bind m (fun x => k))
  (at level 61, m at next level, right associativity) : ext_scope.
Notation "m ;;; k" := (bind m (fun _ => k))
  (at level 61, right associativity) : ext_scope.
Local Open Scope ext_scope.

(** [for (i = 0; i < n; i++) body], over loop-carried variables [s]. *)
Fixpoint for_each {I S : Type} (l : list I) (body : I -> S -> M S) (s : S) : M S :=
  match l with
  | [] => ret s
  | i :: l' => s' <- body i s ;; for_each l' body s'
  end.

(* ================================================================== *)
(** * [__ollama__]: the local variables *)
(* ================================================================== *)


(** The locals of [__ollama__] that outlive one iteration of the parsing
    loop, under the names the source gives them. [retval] is the two-slot
    output list. *)
Record vars : Type := mkVars {
  running : bool;
  retval : octave_value * octave_value;
  model : string;
  prompt : string;
  has_prompt : bool;
  sysmsg : string;
  think : string;
  images : ollama.images;
  has_images : bool;
  options : ollama.options;
  has_options : bool;
  messages : ollama.messages;
  has_messages : bool;
  query_status : bool;
  query_version : bool;
  source : string;
  target : string;
  do_loadModel : bool;
  do_pullModel : bool;
  do_copyModel : bool;
  do_deleteModel : bool;
  do_unloadModel : bool;
  modelInfoName : string;
  do_modelInfo : bool;
  do_listModels : bool;
  do_listRunningModels : bool;
  return_cellstr : bool
}.

Definition set_running (x : bool) (s : vars) : vars :=
  mkVars x (retval s) (model s) (prompt s) (has_prompt s) (sysmsg s)
    (think s) (images s) (has_images s) (options s) (has_options s)
    (messages s) (has_messages s) (query_status s) (query_version s)
    (source s) (target s) (do_loadModel s) (do_pullModel s)
    (do_copyModel s) (do_deleteModel s) (do_unloadModel s)
    (modelInfoName s) (do_modelInfo s) (do_listModels s)
    (do_listRunningModels s) (return_cellstr s).
Definition set_retval (x : octave_value * octave_value) (s : vars) : vars :=
  mkVars (running s) x (model s) (prompt s) (has_prompt s) (sysmsg s)
    (think s) (images s) (has_images s) (options s) (has_options s)
    (messages s) (has_messages s) (query_status s) (query_version s)
    (source s) (target s) (do_loadModel s) (do_pullModel s)
    (do_copyModel s) (do_deleteModel s) (do_unloadModel s)
    (modelInfoName s) (do_modelInfo s) (do_listModels s)
    (do_listRunningModels s) (return_cellstr s).
Definition set_model (x : string) (s : vars) : vars :=
  mkVars (running s) (retval s) x (prompt s) (has_prompt s) (sysmsg s)
    (think s) (images s) (has_images s) (options s) (has_options s)
    (messages s) (has_messages s) (query_status s) (query_version s)
    (source s) (target s) (do_loadModel s) (do_pullModel s)
    (do_copyModel s) (do_deleteModel s) (do_unloadModel s)
    (modelInfoName s) (do_modelInfo s) (do_listModels s)
    (do_listRunningModels s) (return_cellstr s).
Definition set_prompt (x : string) (s : vars) : vars :=
  mkVars (running s) (retval s) (model s) x (has_prompt s) (sysmsg s)
    (think s) (images s) (has_images s) (options s) (has_options s)
    (messages s) (has_messages s) (query_status s) (query_version s)
    (source s) (target s) (do_loadModel s) (do_pullModel s)
    (do_copyModel s) (do_deleteModel s) (do_unloadModel s)
    (modelInfoName s) (do_modelInfo s) (do_listModels s)
    (do_listRunningModels s) (return_cellstr s).
Definition set_has_prompt (x : bool) (s : vars) : vars :=
  mkVars (running s) (retval s) (model s) (prompt s) x (sysmsg s) (think s)
    (images s) (has_images s) (options s) (has_options s) (messages s)
    (has_messages s) (query_status s) (query_version s) (source s)
    (target s) (do_loadModel s) (do_pullModel s) (do_copyModel s)
    (do_deleteModel s) (do_unloadModel s) (modelInfoName s)
    (do_modelInfo s) (do_listModels s) (do_listRunningModels s)
    (return_cellstr s).
Definition set_sysmsg (x : string) (s : vars) : vars :=
  mkVars (running s) (retval s) (model s) (prompt s) (has_prompt s) x
    (think s) (images s) (has_images s) (options s) (has_options s)
    (messages s) (has_messages s) (query_status s) (query_version s)
    (source s) (target s) (do_loadModel s) (do_pullModel s)
    (do_copyModel s) (do_deleteModel s) (do_unloadModel s)
    (modelInfoName s) (do_modelInfo s) (do_listModels s)
    (do_listRunningModels s) (return_cellstr s).
Definition set_think (x : string) (s : vars) : vars :=
  mkVars (running s) (retval s) (model s) (prompt s) (has_prompt s)
    (sysmsg s) x (images s) (has_images s) (options s) (has_options s)
    (messages s) (has_messages s) (query_status s) (query_version s)
    (source s) (target s) (do_loadModel s) (do_pullModel s)
    (do_copyModel s) (do_deleteModel s) (do_unloadModel s)
    (modelInfoName s) (do_modelInfo s) (do_listModels s)
    (do_listRunningModels s) (return_cellstr s).
Definition set_images (x : ollama.images) (s : vars) : vars :=
  mkVars (running s) (retval s) (model s) (prompt s) (has_prompt s)
    (sysmsg s) (think s) x (has_images s) (options s) (has_options s)
    (messages s) (has_messages s) (query_status s) (query_version s)
    (source s) (target s) (do_loadModel s) (do_pullModel s)
    (do_copyModel s) (do_deleteModel s) (do_unloadModel s)
    (modelInfoName s) (do_modelInfo s) (do_listModels s)
    (do_listRunningModels s) (return_cellstr s).
Definition set_has_images (x : bool) (s : vars) : vars :=
  mkVars (running s) (retval s) (model s) (prompt s) (has_prompt s)
    (sysmsg s) (think s) (images s) x (options s) (has_options s) (messages s)
    (has_messages s) (query_status s) (query_version s) (source s)
    (target s) (do_loadModel s) (do_pullModel s) (do_copyModel s)
    (do_deleteModel s) (do_unloadModel s) (modelInfoName s)
    (do_modelInfo s) (do_listModels s) (do_listRunningModels s)
    (return_cellstr s).
Definition set_options (x : ollama.options) (s : vars) : vars :=
  mkVars (running s) (retval s) (model s) (prompt s) (has_prompt s)
    (sysmsg s) (think s) (images s) (has_images s) x (has_options s)
    (messages s) (has_messages s) (query_status s) (query_version s)
    (source s) (target s) (do_loadModel s) (do_pullModel s)
    (do_copyModel s) (do_deleteModel s) (do_unloadModel s)
    (modelInfoName s) (do_modelInfo s) (do_listModels s)
    (do_listRunningModels s) (return_cellstr s).
Definition set_messages (x : ollama.messages) (s : vars) : vars :=
  mkVars (running s) (retval s) (model s) (prompt s) (has_prompt s)
    (sysmsg s) (think s) (images s) (has_images s) (options s)
    (has_options s) x (has_messages s) (query_status s)
    (query_version s) (source s) (target s) (do_loadModel s)
    (do_pullModel s) (do_copyModel s) (do_deleteModel s)
    (do_unloadModel s) (modelInfoName s) (do_modelInfo s)
    (do_listModels s) (do_listRunningModels s) (return_cellstr s).
Definition set_has_messages (x : bool) (s : vars) : vars :=
  mkVars (running s) (retval s) (model s) (prompt s) (has_prompt s)
    (sysmsg s) (think s) (images s) (has_images s) (options s)
    (has_options s) (messages s) x (query_status s) (query_version s)
    (source s) (target s) (do_loadModel s) (do_pullModel s)
    (do_copyModel s) (do_deleteModel s) (do_unloadModel s)
    (modelInfoName s) (do_modelInfo s) (do_listModels s)
    (do_listRunningModels s) (return_cellstr s).
Definition set_query_status (x : bool) (s : vars) : vars :=
  mkVars (running s) (retval s) (model s) (prompt s) (has_prompt s)
    (sysmsg s) (think s) (images s) (has_images s) (options s)
    (has_options s) (messages s) (has_messages s) x (query_version s)
    (source s) (target s) (do_loadModel s) (do_pullModel s)
    (do_copyModel s) (do_deleteModel s) (do_unloadModel s)
    (modelInfoName s) (do_modelInfo s) (do_listModels s)
    (do_listRunningModels s) (return_cellstr s).
Definition set_query_version (x : bool) (s : vars) : vars :=
  mkVars (running s) (retval s) (model s) (prompt s) (has_prompt s)
    (sysmsg s) (think s) (images s) (has_images s) (options s)
    (has_options s) (messages s) (has_messages s) (query_status s) x
    (source s) (target s) (do_loadModel s) (do_pullModel s)
    (do_copyModel s) (do_deleteModel s) (do_unloadModel s)
    (modelInfoName s) (do_modelInfo s) (do_listModels s)
    (do_listRunningModels s) (return_cellstr s).
Definition set_source (x : string) (s : vars) : vars :=
  mkVars (running s) (retval s) (model s) (prompt s) (has_prompt s)
    (sysmsg s) (think s) (images s) (has_images s) (options s)
    (has_options s) (messages s) (has_messages s) (query_status s)
    (query_version s) x (target s) (do_loadModel s) (do_pullModel s)
    (do_copyModel s) (do_deleteModel s) (do_unloadModel s)
    (modelInfoName s) (do_modelInfo s) (do_listModels s)
    (do_listRunningModels s) (return_cellstr s).
Definition set_target (x : string) (s : vars) : vars :=
  mkVars (running s) (retval s) (model s) (prompt s) (has_prompt s)
    (sysmsg s) (think s) (images s) (has_images s) (options s)
    (has_options s) (messages s) (has_messages s) (query_status s)
    (query_version s) (source s) x (do_loadModel s) (do_pullModel s)
    (do_copyModel s) (do_deleteModel s) (do_unloadModel s)
    (modelInfoName s) (do_modelInfo s) (do_listModels s)
    (do_listRunningModels s) (return_cellstr s).
Definition set_do_loadModel (x : bool) (s : vars) : vars :=
  mkVars (running s) (retval s) (model s) (prompt s) (has_prompt s)
    (sysmsg s) (think s) (images s) (has_images s) (options s)
    (has_options s) (messages s) (has_messages s) (query_status s)
    (query_version s) (source s) (target s) x (do_pullModel s)
    (do_copyModel s) (do_deleteModel s) (do_unloadModel s)
    (modelInfoName s) (do_modelInfo s) (do_listModels s)
    (do_listRunningModels s) (return_cellstr s).
Definition set_do_pullModel (x : bool) (s : vars) : vars :=
  mkVars (running s) (retval s) (model s) (prompt s) (has_prompt s)
    (sysmsg s) (think s) (images s) (has_images s) (options s)
    (has_options s) (messages s) (has_messages s) (query_status s)
    (query_version s) (source s) (target s) (do_loadModel s) x
    (do_copyModel s) (do_deleteModel s) (do_unloadModel s)
    (modelInfoName s) (do_modelInfo s) (do_listModels s)
    (do_listRunningModels s) (return_cellstr s).
Definition set_do_copyModel (x : bool) (s : vars) : vars :=
  mkVars (running s) (retval s) (model s) (prompt s) (has_prompt s)
    (sysmsg s) (think s) (images s) (has_images s) (options s)
    (has_options s) (messages s) (has_messages s) (query_status s)
    (query_version s) (source s) (target s) (do_loadModel s)
    (do_pullModel s) x (do_deleteModel s) (do_unloadModel s)
    (modelInfoName s) (do_modelInfo s) (do_listModels s)
    (do_listRunningModels s) (return_cellstr s).
Definition set_do_deleteModel (x : bool) (s : vars) : vars :=
  mkVars (running s) (retval s) (model s) (prompt s) (has_prompt s)
    (sysmsg s) (think s) (images s) (has_images s) (options s)
    (has_options s) (messages s) (has_messages s) (query_status s)
    (query_version s) (source s) (target s) (do_loadModel s)
    (do_pullModel s) (do_copyModel s) x (do_unloadModel s)
    (modelInfoName s) (do_modelInfo s) (do_listModels s)
    (do_listRunningModels s) (return_cellstr s).
Definition set_do_unloadModel (x : bool) (s : vars) : vars :=
  mkVars (running s) (retval s) (model s) (prompt s) (has_prompt s)
    (sysmsg s) (think s) (images s) (has_images s) (options s)
    (has_options s) (messages s) (has_messages s) (query_status s)
    (query_version s) (source s) (target s) (do_loadModel s)
    (do_pullModel s) (do_copyModel s) (do_deleteModel s) x
    (modelInfoName s) (do_modelInfo s) (do_listModels s)
    (do_listRunningModels s) (return_cellstr s).
Definition set_modelInfoName (x : string) (s : vars) : vars :=
  mkVars (running s) (retval s) (model s) (prompt s) (has_prompt s)
    (sysmsg s) (think s) (images s) (has_images s) (options s)
    (has_options s) (messages s) (has_messages s) (query_status s)
    (query_version s) (source s) (target s) (do_loadModel s)
    (do_pullModel s) (do_copyModel s) (do_deleteModel s)
    (do_unloadModel s) x (do_modelInfo s) (do_listModels s)
    (do_listRunningModels s) (return_cellstr s).
Definition set_do_modelInfo (x : bool) (s : vars) : vars :=
  mkVars (running s) (retval s) (model s) (prompt s) (has_prompt s)
    (sysmsg s) (think s) (images s) (has_images s) (options s)
    (has_options s) (messages s) (has_messages s) (query_status s)
    (query_version s) (source s) (target s) (do_loadModel s)
    (do_pullModel s) (do_copyModel s) (do_deleteModel s)
    (do_unloadModel s) (modelInfoName s) x (do_listModels s)
    (do_listRunningModels s) (return_cellstr s).
Definition set_do_listModels (x : bool) (s : vars) : vars :=
  mkVars (running s) (retval s) (model s) (prompt s) (has_prompt s)
    (sysmsg s) (think s) (images s) (has_images s) (options s)
    (has_options s) (messages s) (has_messages s) (query_status s)
    (query_version s) (source s) (target s) (do_loadModel s)
    (do_pullModel s) (do_copyModel s) (do_deleteModel s)
    (do_unloadModel s) (modelInfoName s) (do_modelInfo s) x
    (do_listRunningModels s) (return_cellstr s).
Definition set_do_listRunningModels (x : bool) (s : vars) : vars :=
  mkVars (running s) (retval s) (model s) (prompt s) (has_prompt s)
    (sysmsg s) (think s) (images s) (has_images s) (options s)
    (has_options s) (messages s) (has_messages s) (query_status s)
    (query_version s) (source s) (target s) (do_loadModel s)
    (do_pullModel s) (do_copyModel s) (do_deleteModel s)
    (do_unloadModel s) (modelInfoName s) (do_modelInfo s)
    (do_listModels s) x (return_cellstr s).
Definition set_return_cellstr (x : bool) (s : vars) : vars :=
  mkVars (running s) (retval s) (model s) (prompt s) (has_prompt s)
    (sysmsg s) (think s) (images s) (has_images s) (options s)
    (has_options s) (messages s) (has_messages s) (query_status s)
    (query_version s) (source s) (target s) (do_loadModel s)
    (do_pullModel s) (do_copyModel s) (do_deleteModel s)
    (do_unloadModel s) (modelInfoName s) (do_modelInfo s)
    (do_listModels s) (do_listRunningModels s) x.

(** The state of the variables when the function is entered and the server
    probe at its top has answered [r]: [retval(1) = ! running], and
    [retval(0)] is not assigned. *)
Definition initial (r : bool) : vars :=
  mkVars r (ov_undef, ov_bool (negb r))
    "" "" false "" "false" [] false [] false [] false
    false false "" "" false false false false false
    "" false false false false.

(** One iteration of the parsing loop either falls through to the next
    pair or leaves the function by [return retval]. *)
Inductive flow : Type :=
| Continue (s : vars)
| Return (r : octave_value * octave_value).

(* ================================================================== *)
(** * [__ollama__]: parsing the Name-Value pairs *)
(* ================================================================== *)

Section Binding.

Variable conv : conversions.
Variable lib : library.

(** A call into the client library: it is appended to the history and its
    answer, or its exception, is the library's. *)
Definition invoke (c : call) : M (ret_ty c) :=
  fun h =>
    match lib h c with
    | Returns v => (Value v, h ++ [c])
    | Throws what => (Exception what, h ++ [c])
    end.

Definition next (s : vars) : M flow := ret (Continue s).

(** ['model'] *)
Definition param_model (a1 : octave_value) (s : vars) : M flow :=
  if negb (is_string a1)
  then error "__ollama__: 'model' value must be a character vector."
  else v <- host (string_value a1) ;; next (set_model v s).

(** ['prompt'] *)
Definition param_prompt (a1 : octave_value) (s : vars) : M flow :=
  if has_messages s
  then error "__ollama__: specify either 'prompt' or 'message'."
  else
    let s := set_has_prompt true s in
    if negb (is_string a1)
    then error "__ollama__: 'prompt' value must be a character vector."
    else v <- host (string_value a1) ;; next (set_prompt v s).

(** ['serverURL']: the server is probed again at the new address, and an
    unreachable server ends the call at once. *)
Definition param_serverURL (a1 : octave_value) (s : vars) : M flow :=
  if negb (is_string a1)
  then error "__ollama__: 'serverURL' value must be a character vector."
  else
    url <- host (string_value a1) ;;
    invoke (setServerURL url) ;;;
    r <- invoke is_running ;;
    if negb r
    then ret (Return (ov_bool r, ov_bool true))
    else next (set_running r s).

(** ['readTimeout'] and ['writeTimeout'] *)
Definition param_readTimeout (a1 : octave_value) (s : vars) : M flow :=
  if negb (is_scalar_type a1) || negb (is_double_type a1)
  then error "__ollama__: 'readTimeout' value must be a double scalar."
  else d <- host (double_value conv a1) ;; invoke (setReadTimeout d) ;;; next s.

Definition param_writeTimeout (a1 : octave_value) (s : vars) : M flow :=
  if negb (is_scalar_type a1) || negb (is_double_type a1)
  then error "__ollama__: 'writeTimeout' value must be a double scalar."
  else d <- host (double_value conv a1) ;; invoke (setWriteTimeout d) ;;; next s.

(** ['Query'] *)
Definition param_Query (a1 : octave_value) (s : vars) : M flow :=
  if negb (is_string a1)
  then error "__ollama__: 'Query' value must be a character vector."
  else
    v <- host (string_value a1) ;;
    if v =? "status" then next (set_query_status true s)
    else if v =? "version" then next (set_query_version true s)
    else error "__ollama__: invalid value for 'Query'.".

Definition either_one : string :=
  "__ollama__: either load, pull, copy, delete, or unload a model.".

(** ['loadModel'], ['pullModel'], ['copyModel'], ['deleteModel'] and
    ['unloadModel']: each checks its value, then the flags of the other
    four. *)
Definition param_loadModel (a1 : octave_value) (s : vars) : M flow :=
  if negb (is_string a1)
  then error "__ollama__: 'loadModel' value must be a character vector."
  else if do_pullModel s || do_copyModel s || do_deleteModel s || do_unloadModel s
  then error either_one
  else v <- host (string_value a1) ;; next (set_do_loadModel true (set_source v s)).

Definition param_pullModel (a1 : octave_value) (s : vars) : M flow :=
  if negb (is_string a1)
  then error "__ollama__: 'pullModel' value must be a character vector."
  else if do_loadModel s || do_copyModel s || do_deleteModel s || do_unloadModel s
  then error either_one
  else v <- host (string_value a1) ;; next (set_do_pullModel true (set_source v s)).

Definition param_copyModel (a1 : octave_value) (s : vars) : M flow :=
  let bad : M flow :=
    error "__ollama__: 'copyModel' value must be a cellstring with two elements." in
  if negb (iscellstr a1) then bad
  else
    c <- host (cell_value a1) ;;
    if negb (cell_numel c =? 2)%nat then bad
    else if do_loadModel s || do_pullModel s || do_deleteModel s || do_unloadModel s
    then error either_one
    else
      fnames <- host (cell_value a1) ;;
      src <- host (string_value (cell_at fnames 0)) ;;
      tgt <- host (string_value (cell_at fnames 1)) ;;
      next (set_do_copyModel true (set_target tgt (set_source src s))).

Definition param_deleteModel (a1 : octave_value) (s : vars) : M flow :=
  if negb (is_string a1)
  then error "__ollama__: 'deleteModel' value must be a character vector."
  else if do_loadModel s || do_pullModel s || do_copyModel s || do_unloadModel s
  then error either_one
  else v <- host (string_value a1) ;; next (set_do_deleteModel true (set_source v s)).

Definition param_unloadModel (a1 : octave_value) (s : vars) : M flow :=
  if negb (is_string a1)
  then error "__ollama__: 'loadModel' value must be a character vector."
  else if do_loadModel s || do_pullModel s || do_copyModel s || do_deleteModel s
  then error either_one
  else v <- host (string_value a1) ;; next (set_do_unloadModel true (set_source v s)).

(** ['modelInfo'] *)
Definition param_modelInfo (a1 : octave_value) (s : vars) : M flow :=
  if negb (is_string a1)
  then error "__ollama__: 'modelInfo' value must be a character vector."
  else v <- host (string_value a1) ;; next (set_do_modelInfo true (set_modelInfoName v s)).

(** ['listModels'] and ['listRunningModels'] *)
Definition param_listModels (a1 : octave_value) (s : vars) : M flow :=
  if negb (is_string a1)
  then error "__ollama__: 'listModels' value must be a character vector."
  else
    v <- host (string_value a1) ;;
    s <- (if v =? "cellstr" then ret (set_return_cellstr true s)
          else if negb (v =? "json")
          then error "__ollama__: invalid value for 'listModels'."
          else ret s) ;;
    if do_listRunningModels s
    then error "__ollama__: specify either 'listModels' or 'listRunningModels'."
    else next (set_do_listModels true s).

Definition param_listRunningModels (a1 : octave_value) (s : vars) : M flow :=
  if negb (is_string a1)
  then error "__ollama__: 'listRunningModels' name must be a character vector."
  else
    v <- host (string_value a1) ;;
    s <- (if v =? "cellstr" then ret (set_return_cellstr true s)
          else if negb (v =? "json")
          then error "__ollama__: invalid value for 'listRunningModels'."
          else ret s) ;;
    if do_listModels s
    then error "__ollama__: specify either 'listModels' or 'listRunningModels'."
    else next (set_do_listRunningModels true s).

(** ['imageFile'] and ['imageBase64']: the images are loaded first, and
    only then is a second image parameter refused. A character vector
    replaces the image list, a cell array of character vectors appends to
    it. *)
Definition load_images (load : string -> M image)
    (bad : string) (a1 : octave_value) (s : vars) : M flow :=
  loaded <- (if is_string a1 then
               f <- host (string_value a1) ;;
               img <- load f ;;
               ret [img]
             else if iscellstr a1 then
               files <- host (cell_value a1) ;;
               for_each (seq 0 (cell_numel files))
                 (fun f acc =>
                    name <- host (string_value (cell_at files f)) ;;
                    img <- load name ;;
                    ret (acc ++ [img]))
                 (images s)
             else error bad) ;;
  if has_images s
  then error "__ollama__: specify either 'imageFile' or 'imageBase64'."
  else next (set_has_images true (set_images loaded s)).

Definition param_imageFile : octave_value -> vars -> M flow :=
  load_images (fun f => invoke (image_from_file f))
    "__ollama__: 'imageFile' name must be a character vector or a cell array of character vectors.".

Definition param_imageBase64 : octave_value -> vars -> M flow :=
  load_images (fun d => invoke (image_from_base64_string d))
    "__ollama__: 'imageBase64' name must be a character vector or a cell array of character vectors.".

(** ['options']: the twenty fields the binding forwards, each with the
    conversion applied to its contents, in the order of the source. *)
Inductive field_kind : Type := as_int | as_double | as_bool.

Definition option_fields : list (string * field_kind) :=
  [ ("num_keep", as_int); ("seed", as_int); ("num_predict", as_int);
    ("top_k", as_int); ("top_p", as_double); ("min_p", as_double);
    ("typical_p", as_double); ("repeat_last_n", as_int);
    ("temperature", as_double); ("repeat_penalty", as_double);
    ("presence_penalty", as_double); ("frequency_penalty", as_double);
    ("penalize_newline", as_bool); ("numa", as_bool); ("num_ctx", as_int);
    ("num_batch", as_int); ("num_gpu", as_int); ("main_gpu", as_int);
    ("use_mmap", as_bool); ("num_thread", as_int) ].

Definition convert (k : field_kind) (v : octave_value) : M option_value :=
  match k with
  | as_int => i <- host (int_value conv v) ;; ret (opt_int i)
  | as_double => d <- host (double_value conv v) ;; ret (opt_double d)
  | as_bool => b <- host (bool_value conv v) ;; ret (opt_bool b)
  end.

(** [if (opt.isfield (key)) { options[key] = opt.contents (key).<conversion> (); }] *)
Definition forward_field (opt : octave_scalar_map)
    (f : string * field_kind) (o : ollama.options) : M ollama.options :=
  if isfield (fst f) opt then
    match contents (fst f) opt with
    | Some v => x <- convert (snd f) v ;; ret (options_set (fst f) x o)
    | None => ret o
    end
  else ret o.

Definition param_options (a1 : octave_value) (s : vars) : M flow :=
  if negb (isstruct a1)
  then error "__ollama__: 'options' value must be a scalar structure."
  else
    opt <- host (scalar_map_value a1) ;;
    o <- for_each option_fields (forward_field opt) (options s) ;;
    next (set_options o s).

(** ['message']: one row of the cell array is a user prompt, the images
    sent with it and the previous response. *)
Definition message_image (img : Cell) (irows : nat)
    (acc : list image * bool) : M (list image * bool) :=
  kind <- host (string_value (cell_at2 img irows 0)) ;;
  if kind =? "imageFile" then
    f <- host (string_value (cell_at2 img irows 1)) ;;
    i <- invoke (image_from_file f) ;;
    ret (fst acc ++ [i], true)
  else if kind =? "imageBase64" then
    d <- host (string_value (cell_at2 img irows 1)) ;;
    i <- invoke (image_from_base64_string d) ;;
    ret (fst acc ++ [i], true)
  else ret acc.

Definition message_row (msg : Cell) (mrows : nat) (ms : ollama.messages)
  : M ollama.messages :=
  user <- host (string_value (cell_at2 msg mrows 0)) ;;
  if negb (iscell (cell_at2 msg mrows 1))
     || negb (columns (cell_at2 msg mrows 1) =? 2)%nat
  then error "__ollama__: second column in 'messages' name must be a 2-column cell array."
  else
    img <- host (cell_value (cell_at2 msg mrows 1)) ;;
    found <- for_each (seq 0 (cell_rows img)) (message_image img) ([], false) ;;
    let ms :=
      if snd found
      then ms ++ [mkMessage "user" user (fst found)]
      else ms ++ [mkMessage "user" user []] in
    assistant <- (if is_string (cell_at2 msg mrows 2)
                  then host (string_value (cell_at2 msg mrows 2))
                  else
                    response <- host (cell_value (cell_at2 msg mrows 2)) ;;
                    host (string_value (cell_at response 1))) ;;
    if (0 <? String.length assistant)%nat
    then ret (ms ++ [mkMessage "assistant" assistant []])
    else ret ms.

Definition param_message (a1 : octave_value) (s : vars) : M flow :=
  if has_prompt s
  then error "__ollama__: specify either 'prompt' or 'message'."
  else
    let s := set_has_messages true s in
    if negb (iscell a1)
    then error "__ollama__: 'messages' name must be a cell array."
    else
      msg <- host (cell_value a1) ;;
      if negb (cell_columns msg =? 3)%nat
      then error "__ollama__: 'messages' cell array must have 3 columns."
      else
        ms <- for_each (seq 0 (cell_rows msg)) (message_row msg) (messages s) ;;
        next (set_messages ms s).

(** ['systemMessage'] and ['think'] *)
Definition param_systemMessage (a1 : octave_value) (s : vars) : M flow :=
  if negb (is_string a1)
  then error "__ollama__: 'systemMessage' must be a character vector."
  else
    v <- host (string_value a1) ;;
    next (set_sysmsg (if v =? "default" then "" else v) s).

Definition param_think (a1 : octave_value) (s : vars) : M flow :=
  if negb (is_string a1)
  then error "__ollama__: 'think' value must be a character vector."
  else v <- host (string_value a1) ;; next (set_think v s).

(** The chain of comparisons on the parameter name. A name that matches
    none of them falls out of the chain. *)
Definition parameter (name : string) (a1 : octave_value) (s : vars) : M flow :=
  if name =? "model" then param_model a1 s
  else if name =? "prompt" then param_prompt a1 s
  else if name =? "serverURL" then param_serverURL a1 s
  else if name =? "readTimeout" then param_readTimeout a1 s
  else if name =? "writeTimeout" then param_writeTimeout a1 s
  else if name =? "Query" then param_Query a1 s
  else if name =? "loadModel" then param_loadModel a1 s
  else if name =? "pullModel" then param_pullModel a1 s
  else if name =? "copyModel" then param_copyModel a1 s
  else if name =? "deleteModel" then param_deleteModel a1 s
  else if name =? "unloadModel" then param_unloadModel a1 s
  else if name =? "modelInfo" then param_modelInfo a1 s
  else if name =? "listModels" then param_listModels a1 s
  else if name =? "listRunningModels" then param_listRunningModels a1 s
  else if name =? "imageFile" then param_imageFile a1 s
  else if name =? "imageBase64" then param_imageBase64 a1 s
  else if name =? "options" then param_options a1 s
  else if name =? "message" then param_message a1 s
  else if name =? "systemMessage" then param_systemMessage a1 s
  else if name =? "think" then param_think a1 s
  else next s.

(** The body of the loop for the pair [args(p)], [args(p+1)]. *)
Definition parse_pair (a0 a1 : octave_value) (s : vars) : M flow :=
  if isempty a0 || isempty a1
  then error "__ollama__: input arguments cannot be empty."
  else if negb (is_string a0)
  then error "__ollama__: parameter name must be a character vector."
  else name <- host (string_value a0) ;; parameter name a1 s.

(** [for (p = 0; p < args.length (); p += 2)], entered with an even
    number of arguments. *)
Fixpoint parse_args (args : list octave_value) (s : vars) : M flow :=
  match args with
  | a0 :: a1 :: rest =>
      f <- parse_pair a0 a1 s ;;
      match f with
      | Continue s' => parse_args rest s'
      | Return r => ret (Return r)
      end
  | _ => next s
  end.

(* ================================================================== *)
(** * [__ollama__]: talking to the server *)
(* ================================================================== *)

Definition with_retval (r0 r1 : octave_value) : M (octave_value * octave_value) :=
  ret (r0, r1).

(** [catch (ollama::exception& err)]: the message and the error flag. *)
Definition stringified (what : string) : M (octave_value * octave_value) :=
  with_retval (ov_string what) (ov_bool true).

(** The loop of the ['modelInfo'] task over the model names the server
    lists. *)
Fixpoint modelInfo_loop (models : list string) (name : string)
    (rv : octave_value * octave_value) : M (octave_value * octave_value) :=
  match models with
  | [] => ret rv
  | m :: models' =>
      if m =? name then
        m_info <- invoke (show_model_info name) ;;
        modelInfo_loop models' name (ov_string (dump m_info), ov_bool false)
      else modelInfo_loop models' name rv
  end.

(** [Cell model_names (model_num, 1)] filled with the names. *)
Definition model_names (models : list string) : octave_value :=
  ov_cell (List.length models) 1 (map ov_string models).

(** The inference at the end of the function. *)
Definition inference (s : vars) : M (octave_value * octave_value) :=
  if (String.length (model s) =? 0)%nat
  then error "__ollama: 'model' parameter is required."
  else if negb (has_prompt s) && negb (has_messages s)
  then error "__ollama: either 'prompt' or 'messages' parameter is required."
  else if has_prompt s then
    try_catch
      (response <- invoke (generate (model s) (prompt s) (think s) (sysmsg s)
                                    (options s) (images s)) ;;
       with_retval (ov_string (as_json_string response)) (ov_bool false))
      stringified
  else
    try_catch
      (response <- invoke (chat (model s) (messages s) (think s) (sysmsg s) (options s)) ;;
       with_retval (ov_string (as_json_string response)) (ov_bool false))
      stringified.

(** Everything after the parsing loop: the tasks without inference, in
    the order of the source, each ending in [return retval], then the
    inference. *)
Definition communicate (s : vars) : M (octave_value * octave_value) :=
  if negb (running s) then with_retval (ov_bool false) (ov_bool true)
  else if query_status s then with_retval (ov_bool true) (ov_bool false)
  else if query_version s then
    version <- invoke get_version ;;
    with_retval (ov_string version) (ov_bool false)
  else if do_loadModel s then
    model_loaded <- invoke (load_model (source s)) ;;
    with_retval (ov_bool model_loaded) (ov_bool (negb model_loaded))
  else if do_pullModel s then
    try_catch
      (model_pulled <- invoke (pull_model (source s)) ;;
       with_retval (ov_bool model_pulled) (ov_bool false))
      stringified
  else if do_copyModel s then
    try_catch
      (model_copied <- invoke (copy_model (source s) (target s)) ;;
       with_retval (ov_bool model_copied) (ov_bool false))
      stringified
  else if do_deleteModel s then
    try_catch
      (model_deleted <- invoke (delete_model (source s)) ;;
       with_retval (ov_bool model_deleted) (ov_bool false))
      stringified
  else if do_unloadModel s then
    model_unloaded <- invoke (unload_model (source s)) ;;
    with_retval (ov_bool model_unloaded) (ov_bool (negb model_unloaded))
  else if do_modelInfo s then
    models <- invoke list_models ;;
    try_catch (modelInfo_loop models (modelInfoName s) (retval s)) stringified
  else if do_listModels s then
    try_catch
      (if return_cellstr s then
         models <- invoke list_models ;;
         with_retval (model_names models) (ov_bool false)
       else
         json_models <- invoke list_model_json ;;
         with_retval (ov_string (dump json_models)) (ov_bool false))
      stringified
  else if do_listRunningModels s then
    try_catch
      (if return_cellstr s then
         models <- invoke list_running_models ;;
         with_retval (model_names models) (ov_bool false)
       else
         json_models <- invoke running_model_json ;;
         with_retval (ov_string (dump json_models)) (ov_bool false))
      stringified
  else inference s.

(** [DEFUN_DLD (__ollama__, args, nargout, ...)] *)
Definition __ollama__ (args : list octave_value) (nargout : Z)
  : M (octave_value * octave_value) :=
  if negb (nargout =? 2)%Z
  then error "__ollama__: two output arguments are required."
  else
    running <- invoke is_running ;;
    if negb (List.length args mod 2 =? 0)%nat
    then error "__ollama__: input arguments must be in Name-Value pairs."
    else
      f <- parse_args args (initial running) ;;
      match f with
      | Return r => ret r
      | Continue s => communicate s
      end.

End Binding.

(* ================================================================== *)
(** * [fig2base64] *)
(* ================================================================== *)


(** A [uint8NDArray] of three dimensions, stored column-major. *)
Record uint8NDArray : Type := mkArray {
  dim1 : nat;
  dim2 : nat;
  dim3 : nat;
  bytes_of : list Byte.byte
}.

(** [data(r, c, k)]. The accessor is unchecked in C++; inside the array
    it is the element at [r + dim1 * (c + dim2 * k)]. *)
Definition elem (data : uint8NDArray) (r c k : nat) : Byte.byte :=
  nth (r + dim1 data * (c + dim2 data * k)) (bytes_of data) Byte.x00.

(** A [size_t] passed where the callee takes a [uint32_t]. *)
Definition to_uint32 (n : nat) : Z := (Z.of_nat n mod 2 ^ 32)%Z.

(** The graphics side of the interpreter, fpng and the Base64 encoder. *)
Record toolkit : Type := mkToolkit {
  graphics_object : Type;
  get_object : double -> option graphics_object;
  isa : graphics_object -> string -> bool;
  get_pixels : graphics_object -> octave_value;
  uint8_array_value : octave_value -> host_result uint8NDArray;
  fpng_encode_image_to_memory :
    list Byte.byte -> Z -> Z -> Z -> option (list Byte.byte);
  Base64_Encode : string -> string
}.

Section Figure.

Variable conv : conversions.
Variable tk : toolkit.

(** The three assignments [pixels[i++] = data(r, c, k)] of one pixel. *)
Definition store_pixel (data : uint8NDArray) (r : nat)
    (pixels : list Byte.byte) (c : nat) : list Byte.byte :=
  pixels ++ [elem data r c 0; elem data r c 1; elem data r c 2].

(** The inner and the outer loop, writing from [i = 0] on. *)
Definition store_row (data : uint8NDArray) (cols : nat)
    (pixels : list Byte.byte) (r : nat) : list Byte.byte :=
  fold_left (store_pixel data r) (seq 0 cols) pixels.

Definition map_image (data : uint8NDArray) (rows cols : nat) : list Byte.byte :=
  fold_left (store_row data cols) (seq 0 rows) [].

(** [args(0).xdouble_value (msg)] *)
Definition xdouble_value (v : octave_value) (msg : string) : host_result double :=
  match double_value conv v with
  | host_ok d => host_ok d
  | host_error _ => host_error msg
  end.

(** [octave_value_list retval (nargout); retval(0) = base64;] *)
Definition returned (base64 : string) (nargout : nat) : list octave_value :=
  ov_string base64 :: repeat ov_undef (pred nargout).

(** [DEFMETHOD_DLD (fig2base64, interp, args, nargout, ...)] *)
Definition fig2base64 (args : list octave_value) (nargout : nat)
  : host_result (list octave_value) :=
  match args with
  | [hfig] =>
      match xdouble_value hfig "fig2base64: HFIG is not a handle." with
      | host_error msg => host_error msg
      | host_ok h =>
          match get_object tk h with
          | None => host_error "fig2base64: HFIG is not a figure."
          | Some go =>
              if negb (isa tk go "figure")
              then host_error "fig2base64: HFIG is not a figure."
              else
                match uint8_array_value tk (get_pixels tk go) with
                | host_error msg => host_error msg
                | host_ok data =>
                    let rows := dim1 data in
                    let cols := dim2 data in
                    let ch := 3%Z in
                    let pixels := map_image data rows cols in
                    match fpng_encode_image_to_memory tk pixels
                            (to_uint32 cols) (to_uint32 rows) ch with
                    | None => host_error "fig2base64: unable to convert image to PNG."
                    | Some buffer =>
                        let png_data := string_of_list_byte buffer in
                        let base64 := Base64_Encode tk png_data in
                        host_ok (returned base64 nargout)
                    end
                end
          end
      end
  | _ => host_error "fig2base64: invalig number of input arguments."
  end.

End Figure.

(* ================================================================== *)
(** * Vocabulary of the properties *)
(* ================================================================== *)

(** The parameter names [__ollama__] documents and compares against. *)
Definition parameter_names : list string :=
  [ "model"; "prompt"; "serverURL"; "readTimeout"; "writeTimeout"; "Query";
    "loadModel"; "pullModel"; "copyModel"; "deleteModel"; "unloadModel";
    "modelInfo"; "listModels"; "listRunningModels"; "imageFile";
    "imageBase64"; "options"; "message"; "systemMessage"; "think" ].

Definition recognized (name : string) : bool :=
  existsb (String.eqb name) parameter_names.

(** The five parameters that manage a model on the server. *)
Definition lifecycle_parameters : list string :=
  [ "loadModel"; "pullModel"; "copyModel"; "deleteModel"; "unloadModel" ].

(** [a] is the character vector [n]. *)
Definition is_name (n : string) (a : octave_value) : bool :=
  match a with ov_string x => x =? n | _ => false end.

(** Some pair of the argument list has the name [n]. *)
Fixpoint named (n : string) (args : list octave_value) : bool :=
  match args with
  | a0 :: _ :: rest => is_name n a0 || named n rest
  | _ => false
  end.

(** Some pair of the argument list is ['Query', what]. *)
Fixpoint queried (what : string) (args : list octave_value) : bool :=
  match args with
  | a0 :: a1 :: rest => is_name "Query" a0 && is_name what a1 || queried what rest
  | _ => false
  end.


(** The library calls the parsing loop can make, and the calls that
    manage a model. *)
Definition parsing_call (c : call) : bool :=
  match c with
  | is_running | setServerURL _ | setReadTimeout _ | setWriteTimeout _
  | image_from_file _ | image_from_base64_string _ => true
  | _ => false
  end.

Definition lifecycle_call (c : call) : bool :=
  match c with
  | load_model _ | pull_model _ | copy_model _ _
  | delete_model _ | unload_model _ => true
  | _ => false
  end.

(** The logical operations of the function. *)
Inductive task : Type :=
| ServerDown | Status | Version
| Load | Pull | Copy | Delete | Unload
| ModelInfo | ListModels | ListRunningModels | Inference.

(** The operation a call performs when the server answered [entry] to the
    probe made on entry: a fixed priority over the parameters present,
    whatever their positions. *)
Definition chosen (entry : bool) (args : list octave_value) : task :=
  if negb (entry || named "serverURL" args) then ServerDown
  else if queried "status" args then Status
  else if queried "version" args then Version
  else if named "loadModel" args then Load
  else if named "pullModel" args then Pull
  else if named "copyModel" args then Copy
  else if named "deleteModel" args then Delete
  else if named "unloadModel" args then Unload
  else if named "modelInfo" args then ModelInfo
  else if named "listModels" args then ListModels
  else if named "listRunningModels" args then ListRunningModels
  else Inference.

(** The library functions each operation calls. *)
Definition belongs (t : task) (c : call) : bool :=
  match t, c with
  | Version, get_version => true
  | Load, load_model _ => true
  | Pull, pull_model _ => true
  | Copy, copy_model _ _ => true
  | Delete, delete_model _ => true
  | Unload, unload_model _ => true
  | ModelInfo, (list_models | show_model_info _) => true
  | ListModels, (list_models | list_model_json) => true
  | ListRunningModels, (list_running_models | running_model_json) => true
  | Inference, (generate _ _ _ _ _ _ | chat _ _ _ _ _) => true
  | _, _ => false
  end.








(** A malformed pair: an empty name or value, or a name that is not a
    character vector. *)
Definition malformed_pair (a0 a1 : octave_value) : bool :=
  isempty a0 || isempty a1 || negb (is_string a0).

(** Some pair of the argument list is malformed. *)
Fixpoint malformed (args : list octave_value) : bool :=
  match args with
  | a0 :: a1 :: rest => malformed_pair a0 a1 || malformed rest
  | _ => false
  end.

(** The value of the last pair named [n]. *)
Fixpoint last_value (n : string) (args : list octave_value) : option octave_value :=
  match args with
  | a0 :: a1 :: rest =>
      match last_value n rest with
      | Some v => Some v
      | None => if is_name n a0 then Some a1 else None
      end
  | _ => None
  end.

(** The early return of a ['serverURL'] pair whose server does not
    answer: the outputs, and the two library calls that end the history. *)
Definition early_return (lib : library) (r : outcome (octave_value * octave_value))
    (h : list call) : Prop :=
  r = Value (ov_bool false, ov_bool true) /\
  exists h0 url,
    h = h0 ++ [setServerURL url; is_running] /\
    lib (h0 ++ [setServerURL url]) is_running = Returns false.

(** The ways a call ends without starting an operation: the host's error,
    the early return, or an exception of a library call made while
    parsing. *)
Definition stopped (lib : library) (r : outcome (octave_value * octave_value))
    (h : list call) : Prop :=
  (exists msg, r = Error msg) \/
  early_return lib r h \/
  (exists what, r = Exception what).

(* ================================================================== *)
(** * Libraries and inputs for the examples *)
(* ================================================================== *)

(** An answer of the right type for every call. *)
Definition answer (c : call) : ret_ty c :=
  match c return ret_ty c with
  | is_running => true
  | setServerURL _ | setReadTimeout _ | setWriteTimeout _ => tt
  | get_version => "0.9.0"
  | load_model _ | pull_model _ | copy_model _ _
  | delete_model _ | unload_model _ => true
  | list_models | list_running_models => ["llama3"; "mistral"]
  | show_model_info _ | list_model_json | running_model_json => mkJson "{}"
  | image_from_file f => f
  | image_from_base64_string d => d
  | generate _ _ _ _ _ _ | chat _ _ _ _ _ => mkResponse "{}"
  end.

(** A server that is up and a library that never throws. *)
Definition server_up : library := fun _ c => Returns (answer c).

Definition url_was_set (history : list call) : bool :=
  existsb (fun c => match c with setServerURL _ => true | _ => false end) history.

(** A server at the default address and none at the address given by
    ['serverURL']. *)
Definition unreachable_at_url : library :=
  fun h c =>
    match c return result (ret_ty c) with
    | is_running => Returns (negb (url_was_set h))
    | c' => Returns (answer c')
    end.

(** No server at the default address and one at the address given by
    ['serverURL']. *)
Definition reachable_at_url : library :=
  fun h c =>
    match c return result (ret_ty c) with
    | is_running => Returns (url_was_set h)
    | c' => Returns (answer c')
    end.

(** A library whose model management and listing calls all throw. *)
Definition refusing : library :=
  fun _ c =>
    match c return result (ret_ty c) with
    | load_model _ | unload_model _ | pull_model _ | list_models =>
        Throws "refused"
    | c' => Returns (answer c')
    end.

(** Conversions that accept the scalar of the matching class only. *)
Definition plain : conversions :=
  mkConversions
    (fun v => match v with
              | ov_int 1 1 [i] => host_ok i
              | _ => host_error "wrong type argument"
              end)
    (fun v => match v with
              | ov_double 1 1 [d] => host_ok d
              | _ => host_error "wrong type argument"
              end)
    (fun v => match v with
              | ov_bool b => host_ok b
              | _ => host_error "wrong type argument"
              end).

(** The variables the loop leaves, read off a run of it. *)
Definition variables_after (run : outcome flow * list call) : vars :=
  match fst run with
  | Value (Continue s) => s
  | _ => initial false
  end.

(** A toolkit with one figure, of one row of two pixels, whose PNG
    encoder and Base64 encoder are stand-ins that copy their input. *)
Definition two_pixels : uint8NDArray :=
  mkArray 1 2 3 [Byte.x01; Byte.x02; Byte.x03; Byte.x04; Byte.x05; Byte.x06].

Definition screen : toolkit :=
  mkToolkit unit
    (fun _ => Some tt)
    (fun _ kind => kind =? "figure")
    (fun _ => ov_int 1 2 [])
    (fun _ => host_ok two_pixels)
    (fun pixels _ _ _ => Some pixels)
    (fun text => text).

(* ================================================================== *)
(** * What the parsing loop leaves behind *)
(* ================================================================== *)

(** What the loop did to the variables, from the pairs it read: [p n]
    says a pair was named [n], [q w] that a pair was ['Query', w]. *)
Definition summary (p q : string -> bool) (s s' : vars) : Prop :=
  running s' = running s || p "serverURL" /\
  query_status s' = query_status s || q "status" /\
  query_version s' = query_version s || q "version" /\
  do_loadModel s' = do_loadModel s || p "loadModel" /\
  do_pullModel s' = do_pullModel s || p "pullModel" /\
  do_copyModel s' = do_copyModel s || p "copyModel" /\
  do_deleteModel s' = do_deleteModel s || p "deleteModel" /\
  do_unloadModel s' = do_unloadModel s || p "unloadModel" /\
  do_modelInfo s' = do_modelInfo s || p "modelInfo" /\
  do_listModels s' = do_listModels s || p "listModels" /\
  do_listRunningModels s' = do_listRunningModels s || p "listRunningModels" /\
  has_prompt s' = has_prompt s || p "prompt" /\
  has_messages s' = has_messages s || p "message" /\
  (String.length (model s') =? 0)%nat
    = (String.length (model s) =? 0)%nat && negb (p "model") /\
  retval s' = retval s.

(** At most one of the five model management flags is set, and not both
    of [has_prompt] and [has_messages]. *)
Definition exclusive (s : vars) : Prop :=
  (Nat.b2n (do_loadModel s) + Nat.b2n (do_pullModel s)
   + Nat.b2n (do_copyModel s) + Nat.b2n (do_deleteModel s)
   + Nat.b2n (do_unloadModel s) <= 1)%nat /\
  has_prompt s && has_messages s = false.

(** Every call a computation adds to the history satisfies [P]. *)
Definition only (P : call -> bool) {A} (m : M A) : Prop :=
  forall h r h', m h = (r, h') -> exists t, h' = h ++ t /\ forallb P t = true.

(** The parsing loop ran to its end: the probe on entry answered [entry],
    the arguments come in pairs, and the loop left the variables [s] and
    the history [h]. *)
Definition parsed (conv : conversions) (lib : library)
    (args : list octave_value) (h0 : list call)
    (entry : bool) (s : vars) (h : list call) : Prop :=
  lib h0 is_running = Returns entry /\
  Nat.even (List.length args) = true /\
  parse_args conv lib args (initial entry) (h0 ++ [is_running])
    = (Value (Continue s), h).

(** The operation the variables select: the order of the tests after the
    loop. *)
Definition task_of (s : vars) : task :=
  if negb (running s) then ServerDown
  else if query_status s then Status
  else if query_version s then Version
  else if do_loadModel s then Load
  else if do_pullModel s then Pull
  else if do_copyModel s then Copy
  else if do_deleteModel s then Delete
  else if do_unloadModel s then Unload
  else if do_modelInfo s then ModelInfo
  else if do_listModels s then ListModels
  else if do_listRunningModels s then ListRunningModels
  else Inference.

(** The request an operation sends, from the variables. The inference
    sends one only when a model and a prompt or a message history were
    given; a status query and an unreachable server send none. Model
    information is requested after the models were listed. *)
Definition request (t : task) (s : vars) : option call :=
  match t with
  | ServerDown | Status => None
  | Version => Some get_version
  | Load => Some (load_model (source s))
  | Pull => Some (pull_model (source s))
  | Copy => Some (copy_model (source s) (target s))
  | Delete => Some (delete_model (source s))
  | Unload => Some (unload_model (source s))
  | ModelInfo => Some (show_model_info (modelInfoName s))
  | ListModels =>
      Some (if return_cellstr s then list_models else list_model_json)
  | ListRunningModels =>
      Some (if return_cellstr s then list_running_models else running_model_json)
  | Inference =>
      if (String.length (model s) =? 0)%nat then None
      else if has_prompt s then
        Some (generate (model s) (prompt s) (think s) (sysmsg s) (options s) (images s))
      else if has_messages s then
        Some (chat (model s) (messages s) (think s) (sysmsg s) (options s))
      else None
  end.

(** The operations whose request is made inside a [try] block. *)
Definition handled (t : task) : bool :=
  match t with
  | Pull | Copy | Delete | ListModels | ListRunningModels | Inference => true
  | _ => false
  end.

(** The three bytes stored for the pixel at row [r], column [c]. *)
Definition pixel_bytes (data : uint8NDArray) (r c : nat) : list Byte.byte :=
  [elem data r c 0; elem data r c 1; elem data r c 2].

(* ================================================================== *)
(** * More of the binding's behaviour: vocabulary *)
(* ================================================================== *)

(** The text of the last pair named [n], or [default] when no pair has
    that name. *)
Definition text_of (n default : string) (args : list octave_value) : string :=
  match last_value n args with
  | Some (ov_string x) => x
  | _ => default
  end.

(** The system message a request carries: ['default'] stands for none. *)
Definition system_of (args : list octave_value) : string :=
  let x := text_of "systemMessage" "" args in
  if x =? "default" then "" else x.

(** The two image parameters, and the number of pairs that name one. *)
Definition image_name (a : octave_value) : bool :=
  is_name "imageFile" a || is_name "imageBase64" a.

Fixpoint image_pairs (args : list octave_value) : nat :=
  match args with
  | a0 :: _ :: rest => Nat.b2n (image_name a0) + image_pairs rest
  | _ => 0
  end.

(** Some listing pair asks for a cell array of names. *)
Fixpoint wants_cellstr (args : list octave_value) : bool :=
  match args with
  | a0 :: a1 :: rest =>
      (is_name "listModels" a0 || is_name "listRunningModels" a0)
      && is_name "cellstr" a1
      || wants_cellstr rest
  | _ => false
  end.

(** What one accepted pair does to the text variables, the listing format
    and the image flag. *)
Definition details (name : string) (a1 : octave_value) (s s' : vars) : Prop :=
  (if name =? "model" then a1 = ov_string (model s') else model s' = model s) /\
  (if name =? "prompt" then a1 = ov_string (prompt s') else prompt s' = prompt s) /\
  (if name =? "think" then a1 = ov_string (think s') else think s' = think s) /\
  (if name =? "systemMessage"
   then exists x, a1 = ov_string x /\
                  sysmsg s' = (if x =? "default" then "" else x)
   else sysmsg s' = sysmsg s) /\
  (if (name =? "loadModel") || (name =? "pullModel")
      || (name =? "deleteModel") || (name =? "unloadModel")
   then a1 = ov_string (source s') /\ target s' = target s
   else if name =? "copyModel"
   then exists fnames,
          cell_value a1 = host_ok fnames /\
          cell_at fnames 0 = ov_string (source s') /\
          cell_at fnames 1 = ov_string (target s')
   else source s' = source s /\ target s' = target s) /\
  return_cellstr s'
  = return_cellstr s
    || ((name =? "listModels") || (name =? "listRunningModels"))
       && is_name "cellstr" a1 /\
  (do_listModels s && do_listRunningModels s = false ->
   do_listModels s' && do_listRunningModels s' = false) /\
  (if (name =? "imageFile") || (name =? "imageBase64")
   then has_images s = false /\ has_images s' = true
   else has_images s' = has_images s /\ images s' = images s) /\
  ((name =? "options") = false -> options s' = options s) /\
  ((name =? "message") = false -> messages s' = messages s).

(** The keyword parameters, with the values each accepts. *)
Definition keywords : list (string * list string) :=
  [ ("Query", ["status"; "version"]);
    ("listModels", ["cellstr"; "json"]);
    ("listRunningModels", ["cellstr"; "json"]) ].

(** The last pair that names a model management parameter. *)
Definition managed (name : string) : bool :=
  existsb (String.eqb name) lifecycle_parameters.

Fixpoint last_managed (args : list octave_value) : option (string * octave_value) :=
  match args with
  | a0 :: a1 :: rest =>
      match last_managed rest with
      | Some p => Some p
      | None =>
          match a0 with
          | ov_string name => if managed name then Some (name, a1) else None
          | _ => None
          end
      end
  | _ => None
  end.

(** The request a model management pair stands for. *)
Definition management_call (name : string) (v : octave_value) : option call :=
  match v with
  | ov_string m =>
      if name =? "loadModel" then Some (load_model m)
      else if name =? "pullModel" then Some (pull_model m)
      else if name =? "deleteModel" then Some (delete_model m)
      else if name =? "unloadModel" then Some (unload_model m)
      else None
  | ov_cell _ _ (ov_string from :: ov_string to :: _) =>
      if name =? "copyModel" then Some (copy_model from to) else None
  | _ => None
  end.

(** What the variables hold of a management pair. *)
Definition names_the_model (name : string) (v : octave_value) (s : vars) : Prop :=
  if name =? "copyModel"
  then exists fnames,
         cell_value v = host_ok fnames /\
         cell_at fnames 0 = ov_string (source s) /\
         cell_at fnames 1 = ov_string (target s)
  else v = ov_string (source s).

(** The value an option object holds under a key. *)
Fixpoint options_get (key : string) (o : ollama.options) : option option_value :=
  match o with
  | [] => None
  | (k, v) :: o' => if k =? key then Some v else options_get key o'
  end.

(** The conversion the binding applies to a field of the given kind. *)
Definition conversion (conv : conversions) (k : field_kind) (v : octave_value)
  : host_result option_value :=
  match k with
  | as_int =>
      match int_value conv v with
      | host_ok i => host_ok (opt_int i)
      | host_error msg => host_error msg
      end
  | as_double =>
      match double_value conv v with
      | host_ok d => host_ok (opt_double d)
      | host_error msg => host_error msg
      end
  | as_bool =>
      match bool_value conv v with
      | host_ok b => host_ok (opt_bool b)
      | host_error msg => host_error msg
      end
  end.

(** The kind of a field among [fields], if it is one of them. *)
Fixpoint kind_in (fields : list (string * field_kind)) (key : string)
  : option field_kind :=
  match fields with
  | [] => None
  | (k, kind) :: fields' => if k =? key then Some kind else kind_in fields' key
  end.

(** What a structure makes of the value [old] of a key: a field the
    binding forwards, present in the structure, replaces it. *)
Definition field_value (conv : conversions) (fields : list (string * field_kind))
    (key : string) (opt : octave_scalar_map) (old : option option_value)
  : option option_value :=
  match kind_in fields key, contents key opt with
  | Some kind, Some v =>
      match conversion conv kind v with
      | host_ok x => Some x
      | host_error _ => old
      end
  | _, _ => old
  end.

(** What the ['options'] pairs of an argument list, read in order, make
    of the value [old] of a key. *)
Fixpoint forwarded (conv : conversions) (key : string)
    (args : list octave_value) (old : option option_value)
  : option option_value :=
  match args with
  | a0 :: a1 :: rest =>
      forwarded conv key rest
        (if is_name "options" a0 then
           match scalar_map_value a1 with
           | host_ok opt => field_value conv option_fields key opt old
           | host_error _ => old
           end
         else old)
  | _ => old
  end.

(** A chat history without images: each turn is the user's text and the
    previous response, which is empty when there is none. Its three-column
    cell array holds the texts of the user, an empty two-column cell array
    of images for every turn, and the responses. *)
Definition history_cell (turns : list (string * string)) : octave_value :=
  ov_cell (List.length turns) 3
    (map (fun t => ov_string (fst t)) turns
     ++ repeat (ov_cell 0 2 []) (List.length turns)
     ++ map (fun t => ov_string (snd t)) turns).

(** The messages of a turn. *)
Definition turn_messages (t : string * string) : ollama.messages :=
  mkMessage "user" (fst t) []
  :: (if (0 <? String.length (snd t))%nat
      then [mkMessage "assistant" (snd t) []]
      else []).

(** The call that loads an image, from a file or from Base64 text, and
    the name of the parameter that asks for it. *)
Definition image_call (base64 : bool) (x : string) : call :=
  if base64 then image_from_base64_string x else image_from_file x.

Definition image_parameter (base64 : bool) : string :=
  if base64 then "imageBase64" else "imageFile".

(** The images the library returns when [xs] are loaded one after the
    other from the history [h] on, if none of the loads throws. *)
Fixpoint loaded (lib : library) (base64 : bool) (h : list call)
    (xs : list string) : option (list image) :=
  match xs with
  | [] => Some []
  | x :: xs' =>
      match (if base64 return result image
             then lib h (image_from_base64_string x)
             else lib h (image_from_file x)) with
      | Returns i =>
          match loaded lib base64 (h ++ [image_call base64 x]) xs' with
          | Some l => Some (i :: l)
          | None => None
          end
      | Throws _ => None
      end
  end.

(** The load of one image inside the parsing loop. *)
Definition image_loader (lib : library) (base64 : bool) (x : string) : M image :=
  if base64 then invoke lib (image_from_base64_string x)
  else invoke lib (image_from_file x).

(** The calls that set the server's address or probe the server, and the
    addresses the ['serverURL'] pairs of an argument list give, in order. *)
Definition probing (c : call) : bool :=
  match c with
  | is_running | setServerURL _ => true
  | _ => false
  end.

Definition quiet (c : call) : bool := negb (probing c).

Fixpoint addresses (args : list octave_value) : list string :=
  match args with
  | a0 :: a1 :: rest =>
      (if is_name "serverURL" a0
       then match a1 with ov_string url => [url] | _ => [] end
       else [])
      ++ addresses rest
  | _ => []
  end.

(** The snapshot [two_pixels] with a fourth channel. *)
Definition two_pixels_with_alpha : uint8NDArray :=
  mkArray 1 2 4
    [Byte.x01; Byte.x02; Byte.x03; Byte.x04; Byte.x05; Byte.x06;
     Byte.xff; Byte.x80].

(* ================================================================== *)
(** * Computations, step by step *)
(* ================================================================== *)

Ltac unfold_params H :=
  unfold param_model, param_prompt, param_serverURL, param_readTimeout,
    param_writeTimeout, param_Query, param_loadModel, param_pullModel,
    param_copyModel, param_deleteModel, param_unloadModel, param_modelInfo,
    param_listModels, param_listRunningModels, param_imageFile,
    param_imageBase64, load_images, param_options, param_message,
    param_systemMessage, param_think in H.

Lemma bind_inv {A B} (m : M A) (k : A -> M B) h r h' :
  bind m k h = (r, h') ->
  (exists a h1, m h = (Value a, h1) /\ k a h1 = (r, h')) \/
  (exists msg, m h = (Error msg, h') /\ r = Error msg) \/
  (exists what, m h = (Exception what, h') /\ r = Exception what).
Proof.
  unfold bind. destruct (m h) as [[a|msg|what] h1]; intros H.
  - left. eauto.
  - right. left. inversion H. eauto.
  - right. right. inversion H. eauto.
Qed.

Lemma try_catch_inv {A} (m : M A) (k : string -> M A) h r h' :
  try_catch m k h = (r, h') ->
  (exists what h1, m h = (Exception what, h1) /\ k what h1 = (r, h')) \/
  (m h = (r, h') /\ forall what, r <> Exception what).
Proof.
  unfold try_catch. destruct (m h) as [[a|msg|what] h1]; intros H.
  - right. split; [assumption|]. inversion H. discriminate.
  - right. split; [assumption|]. inversion H. discriminate.
  - left. eauto.
Qed.

Lemma invoke_inv (lib : library) (c : call) h r h' :
  invoke lib c h = (r, h') ->
  h' = h ++ [c] /\
  ((exists v, lib h c = Returns v /\ r = Value v) \/
   (exists what, lib h c = Throws what /\ r = Exception what)).
Proof.
  unfold invoke. destruct (lib h c); intros H; inversion H; eauto.
Qed.

Lemma host_inv {A} (x : host_result A) h r h' :
  host x h = (r, h') ->
  h' = h /\
  ((exists v, x = host_ok v /\ r = Value v) \/
   (exists msg, x = host_error msg /\ r = Error msg)).
Proof.
  unfold host. destruct x; intros H; inversion H; eauto.
Qed.

Ltac run1 :=
  match goal with
  | H : (_, _) = (_, _) |- _ => inversion H; subst; clear H
  | H : error _ _ = _ |- _ => unfold error in H
  | H : ret _ _ = _ |- _ => unfold ret in H
  | H : next _ _ = _ |- _ => unfold next, ret in H
  | H : with_retval _ _ _ = _ |- _ => unfold with_retval, ret in H
  | H : stringified _ _ = _ |- _ => unfold stringified, with_retval, ret in H
  | H : host _ _ = _ |- _ =>
      apply host_inv in H;
      destruct H as [-> [(? & ? & ?) | (? & ? & ?)]]
  | H : invoke _ _ _ = _ |- _ =>
      apply invoke_inv in H;
      destruct H as [-> [(? & ? & ?) | (? & ? & ?)]]
  | H : bind _ _ _ = _ |- _ =>
      apply bind_inv in H;
      destruct H as [(? & ? & ? & ?) | [(? & ? & ?) | (? & ? & ?)]]
  | H : try_catch _ _ _ = _ |- _ =>
      apply try_catch_inv in H;
      destruct H as [(? & ? & ? & ?) | (? & ?)]
  | H : (if ?b then _ else _) _ = _ |- _ => destruct b eqn:?
  | H : (let _ := _ in _) _ = _ |- _ => cbv zeta in H
  | H : Value _ = Value _ |- _ => inversion H; subst; clear H
  | H : Value _ = Error _ |- _ => discriminate H
  | H : Value _ = Exception _ |- _ => discriminate H
  | H : Error _ = Value _ |- _ => discriminate H
  | H : Exception _ = Value _ |- _ => discriminate H
  | H : Error _ = Exception _ |- _ => discriminate H
  | H : Exception _ = Error _ |- _ => discriminate H
  end.

Ltac run := repeat run1.

Lemma isempty_string v : isempty (ov_string v) = (String.length v =? 0)%nat.
Proof.
  unfold isempty, numel, rows, columns.
  destruct (String.length v); reflexivity.
Qed.

Lemma string_value_inv a x : string_value a = host_ok x -> a = ov_string x.
Proof. destruct a; simpl; intros H; inversion H; reflexivity. Qed.

Ltac strings :=
  repeat match goal with
         | H : string_value ?a = host_ok _ |- _ =>
             apply string_value_inv in H; subst a
         | H : isempty (ov_string _) = _ |- _ => rewrite isempty_string in H
         | H : negb _ = false |- _ => apply negb_false_iff in H
         | H : negb _ = true |- _ => apply negb_true_iff in H
         | H : (?x =? _) = true |- _ => apply String.eqb_eq in H; subst x
         | H : recognized _ = false |- _ =>
             unfold recognized, parameter_names in H; cbn [existsb] in H;
             repeat (apply orb_false_elim in H; destruct H as [? H]); clear H
         end.

Ltac rewrite_tests :=
  repeat match goal with
         | H : ?b = true |- context [?b] => rewrite H
         | H : ?b = false |- context [?b] => rewrite H
         end.

Lemma pairs_ind {A} (P : list A -> Prop) :
  P [] -> (forall a, P [a]) -> (forall a b l, P l -> P (a :: b :: l)) ->
  forall l, P l.
Proof.
  intros H0 H1 H2.
  assert (forall l, P l /\ forall a, P (a :: l)) as H.
  { induction l as [|b l [IH1 IH2]]; split; auto. }
  intros l. apply H.
Qed.

Lemma summary_refl s : summary (fun _ => false) (fun _ => false) s s.
Proof.
  unfold summary. rewrite !orb_false_r, andb_true_r. repeat split.
Qed.

Lemma summary_trans p1 q1 p2 q2 s s1 s2 :
  summary p1 q1 s s1 -> summary p2 q2 s1 s2 ->
  summary (fun n => p1 n || p2 n) (fun w => q1 w || q2 w) s s2.
Proof.
  unfold summary. intros H1 H2.
  repeat match goal with H : _ /\ _ |- _ => destruct H end.
  rewrite negb_orb, !orb_assoc, andb_assoc.
  repeat split; congruence.
Qed.

Lemma initial_exclusive entry : exclusive (initial entry).
Proof. split; cbn; [lia | reflexivity]. Qed.

Lemma even_mod2 n : (n mod 2 =? 0)%nat = Nat.even n.
Proof.
  rewrite <- Nat.bit0_mod, Nat.bit0_odd, <- Nat.negb_even.
  destruct (Nat.even n); reflexivity.
Qed.

Lemma even_app {A} (l1 l2 : list A) :
  Nat.even (List.length l1) = true ->
  Nat.even (List.length (l1 ++ l2)) = Nat.even (List.length l2).
Proof.
  intros H. rewrite length_app, Nat.even_add, H.
  destruct (Nat.even (List.length l2)); reflexivity.
Qed.

(* ================================================================== *)
(** * Properties of [__ollama__] *)
(* ================================================================== *)

Section OllamaFacts.

Variable conv : conversions.
Variable lib : library.

Lemma parameter_cases (a1 : octave_value) (s : vars) (P : string -> M flow -> Prop) :
  P "model" (param_model a1 s) ->
  P "prompt" (param_prompt a1 s) ->
  P "serverURL" (param_serverURL lib a1 s) ->
  P "readTimeout" (param_readTimeout conv lib a1 s) ->
  P "writeTimeout" (param_writeTimeout conv lib a1 s) ->
  P "Query" (param_Query a1 s) ->
  P "loadModel" (param_loadModel a1 s) ->
  P "pullModel" (param_pullModel a1 s) ->
  P "copyModel" (param_copyModel a1 s) ->
  P "deleteModel" (param_deleteModel a1 s) ->
  P "unloadModel" (param_unloadModel a1 s) ->
  P "modelInfo" (param_modelInfo a1 s) ->
  P "listModels" (param_listModels a1 s) ->
  P "listRunningModels" (param_listRunningModels a1 s) ->
  P "imageFile" (param_imageFile lib a1 s) ->
  P "imageBase64" (param_imageBase64 lib a1 s) ->
  P "options" (param_options conv a1 s) ->
  P "message" (param_message lib a1 s) ->
  P "systemMessage" (param_systemMessage a1 s) ->
  P "think" (param_think a1 s) ->
  (forall name, recognized name = false -> P name (next s)) ->
  forall name, P name (parameter conv lib name a1 s).
Proof.
  intros. unfold parameter.
  repeat match goal with
         | |- context [if ?n =? ?c then _ else _] =>
             destruct (String.eqb_spec n c) as [->|?]; [assumption|]
         end.
  match goal with H : forall _, _ -> _ |- _ => apply H end.
  unfold recognized, parameter_names. cbn [existsb].
  repeat match goal with
         | H : ?n <> ?c |- _ => apply String.eqb_neq in H; rewrite H; clear H
         end.
  reflexivity.
Qed.

Lemma parameter_summary name a1 s h s' h' :
  isempty a1 = false ->
  parameter conv lib name a1 s h = (Value (Continue s'), h') ->
  summary (String.eqb name) (fun w => (name =? "Query") && is_name w a1) s s'.
Proof.
  intros Hne. revert h s' h'. pattern name, (parameter conv lib name a1 s).
  apply parameter_cases; clear name.
  all: intros; match goal with H : _ = (Value _, _) |- _ => unfold_params H; run end.
  all: try discriminate.
  all: strings; subst.
  all: unfold summary; cbn.
  all: rewrite_tests.
  all: rewrite ?orb_false_r, ?andb_true_r, ?andb_false_r, ?orb_true_r.
  all: try (repeat split; reflexivity).
  all: try (repeat split; congruence).
Qed.

Lemma parameter_exclusive name a1 s h s' h' :
  exclusive s ->
  parameter conv lib name a1 s h = (Value (Continue s'), h') ->
  exclusive s'.
Proof.
  intros Hex. revert h s' h'. pattern name, (parameter conv lib name a1 s).
  apply parameter_cases; clear name.
  all: intros; match goal with H : _ = (Value _, _) |- _ => unfold_params H; run end.
  all: try discriminate.
  all: try assumption.
  all: destruct Hex as [Hone Hboth]; unfold exclusive; cbn.
  all: repeat match goal with
              | H : _ || _ = false |- _ => apply orb_false_elim in H; destruct H
              end.
  all: rewrite_tests; cbn.
  all: try (split; [lia | first [assumption | reflexivity]]).
  all: split; [assumption | ].
  all: rewrite ?andb_false_r; reflexivity.
Qed.

Lemma parameter_return name a1 s h r h' :
  parameter conv lib name a1 s h = (Value (Return r), h') ->
  r = (ov_bool false, ov_bool true) /\
  exists url,
    h' = h ++ [setServerURL url; is_running] /\
    lib (h ++ [setServerURL url]) is_running = Returns false.
Proof.
  revert h r h'. pattern name, (parameter conv lib name a1 s).
  apply parameter_cases; clear name.
  all: intros; match goal with H : _ = (Value _, _) |- _ => unfold_params H; run end.
  all: try discriminate.
  strings; subst. split; [reflexivity|].
  eexists. rewrite <- app_assoc. split; [reflexivity|]. assumption.
Qed.

Lemma parameter_unrecognized name a1 s :
  recognized name = false -> parameter conv lib name a1 s = next s.
Proof.
  pattern name, (parameter conv lib name a1 s).
  apply parameter_cases; clear name; try discriminate. reflexivity.
Qed.

(** ** The calls of a computation *)

Lemma only_ret P {A} (a : A) : only P (ret a).
Proof. intros h r h' H. inversion H. exists []. rewrite app_nil_r. auto. Qed.

Lemma only_error P {A} msg : only P (@error A msg).
Proof. intros h r h' H. inversion H. exists []. rewrite app_nil_r. auto. Qed.

Lemma only_host P {A} (x : host_result A) : only P (host x).
Proof. destruct x; [apply only_ret | apply only_error]. Qed.

Lemma only_invoke (P : call -> bool) c : P c = true -> only P (invoke lib c).
Proof.
  intros Hc h r h' H. apply invoke_inv in H. destruct H as [-> _].
  exists [c]. simpl. rewrite Hc. auto.
Qed.

Lemma only_bind P {A B} (m : M A) (k : A -> M B) :
  only P m -> (forall a, only P (k a)) -> only P (bind m k).
Proof.
  intros Hm Hk h r h' H. apply bind_inv in H.
  destruct H as [(a & h1 & E & H) | [(msg & E & _) | (what & E & _)]].
  - apply Hm in E. apply Hk in H.
    destruct E as (t1 & -> & F1), H as (t2 & -> & F2).
    exists (t1 ++ t2). rewrite app_assoc, forallb_app, F1, F2. auto.
  - apply Hm in E. assumption.
  - apply Hm in E. assumption.
Qed.

Lemma only_try_catch P {A} (m : M A) (k : string -> M A) :
  only P m -> (forall what, only P (k what)) -> only P (try_catch m k).
Proof.
  intros Hm Hk h r h' H. apply try_catch_inv in H.
  destruct H as [(what & h1 & E & H) | (E & _)].
  - apply Hm in E. apply Hk in H.
    destruct E as (t1 & -> & F1), H as (t2 & -> & F2).
    exists (t1 ++ t2). rewrite app_assoc, forallb_app, F1, F2. auto.
  - apply Hm in E. assumption.
Qed.

Lemma only_if P {A} (b : bool) (m1 m2 : M A) :
  only P m1 -> only P m2 -> only P (if b then m1 else m2).
Proof. destruct b; auto. Qed.

Lemma only_for_each P {I S} (l : list I) (body : I -> S -> M S) :
  (forall i s, only P (body i s)) -> forall s, only P (for_each l body s).
Proof.
  intros Hb. induction l as [|i l IH]; intros s; simpl.
  - apply only_ret.
  - apply only_bind; auto.
Qed.

Ltac calls :=
  repeat first
    [ apply only_ret | apply only_error | apply only_host
    | match goal with
      | |- only ?P (invoke _ ?c) => exact (only_invoke P c eq_refl)
      end
    | apply only_bind; [|intros]
    | apply only_try_catch; [|intros]
    | apply only_for_each; intros
    | apply only_if
    | match goal with
      | |- only _ (match ?x with _ => _ end) => destruct x
      end
    | progress cbv zeta
    | progress unfold next, with_retval, stringified, message_row,
        message_image, forward_field, convert ].


Lemma parameter_modelInfoName name a1 s h s' h' :
  parameter conv lib name a1 s h = (Value (Continue s'), h') ->
  if name =? "modelInfo"
  then a1 = ov_string (modelInfoName s')
  else modelInfoName s' = modelInfoName s.
Proof.
  revert h s' h'. pattern name, (parameter conv lib name a1 s).
  apply parameter_cases; clear name.
  all: intros; match goal with H : _ = (Value _, _) |- _ => unfold_params H; run end.
  all: try discriminate.
  all: strings; subst; cbn; rewrite_tests; reflexivity.
Qed.

(** ** One pair *)

Lemma parse_pair_malformed a0 a1 s h :
  malformed_pair a0 a1 = true ->
  exists msg, parse_pair conv lib a0 a1 s h = (Error msg, h).
Proof.
  unfold malformed_pair, parse_pair. intros H.
  destruct (isempty a0 || isempty a1); [eexists; reflexivity|].
  cbn [orb] in H. rewrite H. eexists; reflexivity.
Qed.

Lemma parse_pair_wellformed a0 a1 s :
  malformed_pair a0 a1 = false ->
  exists name,
    a0 = ov_string name /\ isempty a1 = false /\
    parse_pair conv lib a0 a1 s = parameter conv lib name a1 s.
Proof.
  unfold malformed_pair, parse_pair. intros H.
  apply orb_false_elim in H. destruct H as [H H0].
  rewrite H. apply orb_false_elim in H. destruct H as [_ H1].
  rewrite H0. destruct a0; try discriminate.
  eexists. repeat split; auto.
Qed.

Lemma parse_pair_cases a0 a1 s h r h' :
  parse_pair conv lib a0 a1 s h = (r, h') ->
  (malformed_pair a0 a1 = true /\ h' = h /\ exists msg, r = Error msg) \/
  (malformed_pair a0 a1 = false /\
   exists name,
     a0 = ov_string name /\ isempty a1 = false /\
     parameter conv lib name a1 s h = (r, h')).
Proof.
  intros H. destruct (malformed_pair a0 a1) eqn:E.
  - left. destruct (parse_pair_malformed a0 a1 s h E) as (msg & Hm).
    rewrite Hm in H. inversion H. eauto.
  - right. split; [reflexivity|].
    destruct (parse_pair_wellformed a0 a1 s E) as (name & -> & Hv & Hp).
    rewrite Hp in H. eauto.
Qed.

(** ** The loop *)

Lemma parse_args_continue args :
  forall s h s' h',
    parse_args conv lib args s h = (Value (Continue s'), h') ->
    malformed args = false /\
    summary (fun n => named n args) (fun w => queried w args) s s' /\
    (exclusive s -> exclusive s').
Proof.
  induction args as [| a | a0 a1 rest IH] using pairs_ind; intros s h s' h' H.
  - inversion H. subst.
    split; [reflexivity|]. split; [exact (summary_refl _)|auto].
  - inversion H. subst.
    split; [reflexivity|]. split; [exact (summary_refl _)|auto].
  - cbn [parse_args] in H. apply bind_inv in H.
    destruct H as [(f & h1 & E & H) | [(msg & _ & ?) | (what & _ & ?)]];
      try discriminate.
    destruct f as [s1|r]; [|inversion H].
    apply parse_pair_cases in E.
    destruct E as [(_ & _ & msg & ?) | (Hwf & name & -> & Hv & E)];
      try discriminate.
    apply IH in H. destruct H as (Hm & Hs & Hx).
    cbn [malformed]. rewrite Hwf, Hm.
    split; [reflexivity|]. split.
    + exact (summary_trans _ _ _ _ _ _ _
               (parameter_summary name a1 s h s1 h1 Hv E) Hs).
    + intros Hex. apply Hx. eapply parameter_exclusive; eassumption.
Qed.

Lemma parse_args_modelInfoName args :
  forall s h s' h',
    parse_args conv lib args s h = (Value (Continue s'), h') ->
    match last_value "modelInfo" args with
    | Some v => v = ov_string (modelInfoName s')
    | None => modelInfoName s' = modelInfoName s
    end.
Proof.
  induction args as [| a | a0 a1 rest IH] using pairs_ind; intros s h s' h' H.
  - inversion H. reflexivity.
  - inversion H. reflexivity.
  - cbn [parse_args] in H. apply bind_inv in H.
    destruct H as [(f & h1 & E & H) | [(msg & _ & ?) | (what & _ & ?)]];
      try discriminate.
    destruct f as [s1|r]; [|inversion H].
    apply parse_pair_cases in E.
    destruct E as [(_ & _ & msg & ?) | (Hwf & name & -> & Hv & E)];
      try discriminate.
    apply IH in H. apply parameter_modelInfoName in E.
    cbn [last_value is_name].
    destruct (last_value "modelInfo" rest); [exact H|].
    destruct (name =? "modelInfo"); congruence.
Qed.

Lemma parse_args_return args :
  forall s h r h',
    parse_args conv lib args s h = (Value (Return r), h') ->
    early_return lib (Value r) h'.
Proof.
  induction args as [| a | a0 a1 rest IH] using pairs_ind; intros s h r h' H;
    try discriminate.
  cbn [parse_args] in H. apply bind_inv in H.
  destruct H as [(f & h1 & E & H) | [(msg & _ & ?) | (what & _ & ?)]];
    try discriminate.
  destruct f as [s1|r1]; [eauto|].
  inversion H; subst.
  apply parse_pair_cases in E.
  destruct E as [(_ & _ & msg & ?) | (_ & name & -> & _ & E)];
    try discriminate.
  apply parameter_return in E. destruct E as (-> & url & -> & Hl).
  split; [reflexivity|]. eauto.
Qed.

Lemma parse_pair_calls a0 a1 s : only parsing_call (parse_pair conv lib a0 a1 s).
Proof.
  unfold parse_pair. calls.
Qed.

Lemma parse_args_calls args : forall s, only parsing_call (parse_args conv lib args s).
Proof.
  induction args as [| a | a0 a1 rest IH] using pairs_ind; intros s;
    cbn [parse_args]; calls; auto using parse_pair_calls.
Qed.

Lemma parse_args_app pre rest :
  Nat.even (List.length pre) = true ->
  forall s h,
    parse_args conv lib (pre ++ rest) s h =
    match parse_args conv lib pre s h with
    | (Value (Continue s'), h1) => parse_args conv lib rest s' h1
    | other => other
    end.
Proof.
  induction pre as [| a | a0 a1 pre IH] using pairs_ind; intros Hev s h;
    try discriminate; [reflexivity|].
  cbn [app parse_args]. unfold bind.
  destruct (parse_pair conv lib a0 a1 s h) as [[[s1|r]|msg|what] h1];
    try reflexivity.
  apply IH. exact Hev.
Qed.

(** ** The whole function *)

Lemma ollama_parsed args h0 entry s h :
  parsed conv lib args h0 entry s h ->
  __ollama__ conv lib args 2 h0 = communicate lib s h.
Proof.
  intros (Hr & Hev & Hp). unfold __ollama__. cbn [Z.eqb Pos.eqb negb].
  unfold bind at 1, invoke. rewrite Hr, even_mod2, Hev. cbn [negb].
  unfold bind. rewrite Hp. reflexivity.
Qed.

Lemma ollama_cases args nargout h0 r h' :
  __ollama__ conv lib args nargout h0 = (r, h') ->
  (stopped lib r h' /\
   exists t, h' = h0 ++ t /\ forallb parsing_call t = true) \/
  (nargout = 2%Z /\
   exists entry s h,
     parsed conv lib args h0 entry s h /\ communicate lib s h = (r, h')).
Proof.
  unfold __ollama__. intros H.
  destruct (Z.eqb_spec nargout 2) as [->|Hn]; cbn [negb] in H.
  2:{ left. inversion H. split; [left; eauto|].
      exists []. rewrite app_nil_r. auto. }
  apply bind_inv in H.
  destruct H as [(entry & h1 & E & H) | [(msg & E & ->) | (what & E & ->)]].
  2:{ apply invoke_inv in E. destruct E as [_ [(? & _ & ?)|(? & _ & ?)]]; discriminate. }
  2:{ apply invoke_inv in E. destruct E as [-> _]. left.
      split; [right; right; eauto|]. exists [is_running]. auto. }
  apply invoke_inv in E. destruct E as [-> [(v & Hr & Hv)|(? & _ & ?)]];
    [|discriminate].
  inversion Hv; subst v; clear Hv.
  rewrite even_mod2 in H.
  destruct (Nat.even (List.length args)) eqn:Hev; cbn [negb] in H.
  2:{ left. inversion H. split; [left; eauto|]. exists [is_running]. auto. }
  apply bind_inv in H.
  destruct H as [(f & h2 & E & H) | [(msg & E & ->) | (what & E & ->)]].
  - destruct f as [s|r1].
    + right. split; [reflexivity|]. exists entry, s, h2. repeat split; auto.
    + left. inversion H; subst.
      pose proof (parse_args_return _ _ _ _ _ E) as Hret.
      apply parse_args_calls in E. destruct E as (t & -> & Ht).
      split; [right; left; exact Hret|].
      exists (is_running :: t). rewrite <- app_assoc. auto.
  - left. apply parse_args_calls in E. destruct E as (t & -> & Ht).
    split; [left; eauto|]. exists (is_running :: t). rewrite <- app_assoc. auto.
  - left. apply parse_args_calls in E. destruct E as (t & -> & Ht).
    split; [right; right; eauto|].
    exists (is_running :: t). rewrite <- app_assoc. auto.
Qed.

Lemma parsed_facts args h0 entry s h :
  parsed conv lib args h0 entry s h ->
  malformed args = false /\
  summary (fun n => named n args) (fun w => queried w args) (initial entry) s /\
  exclusive s /\
  exists t, h = h0 ++ is_running :: t /\ forallb parsing_call t = true.
Proof.
  intros (Hr & Hev & Hp).
  pose proof (parse_args_continue _ _ _ _ _ Hp) as (Hm & Hs & Hx).
  apply parse_args_calls in Hp. destruct Hp as (t & -> & Ht).
  split; [exact Hm|]. split; [exact Hs|].
  split; [apply Hx, initial_exclusive|].
  exists t. rewrite <- app_assoc. auto.
Qed.

(** ** After the loop *)

Ltac select Hc :=
  unfold task_of in Hc;
  repeat match type of Hc with
         | (if ?b then _ else _) = _ =>
             let F := fresh "Flag" in destruct b eqn:F; try discriminate Hc
         end;
  clear Hc.

Ltac communicate_with_flags :=
  unfold communicate;
  repeat match goal with
         | F : ?b = _ |- context [if ?b then _ else _] => rewrite F
         end.


Lemma parsed_task args h0 entry s h :
  parsed conv lib args h0 entry s h -> task_of s = chosen entry args.
Proof.
  intros H. apply parsed_facts in H. destruct H as (_ & Hs & _).
  unfold summary in Hs. cbn in Hs.
  repeat match goal with H : _ /\ _ |- _ => destruct H end.
  unfold task_of, chosen.
  repeat match goal with H : ?f s = _ |- context [?f s] => rewrite H end.
  reflexivity.
Qed.

Lemma modelInfo_loop_calls models name :
  forall rv, only (belongs ModelInfo) (modelInfo_loop lib models name rv).
Proof.
  induction models as [|m models IH]; intros rv; cbn [modelInfo_loop]; calls; auto.
Qed.

Lemma communicate_calls s : only (belongs (task_of s)) (communicate lib s).
Proof.
  unfold communicate, task_of, inference.
  repeat match goal with
         | |- context [if ?b then _ else _] => destruct b
         end.
  all: calls; auto using modelInfo_loop_calls.
Qed.

Lemma named_app n pre rest :
  Nat.even (List.length pre) = true ->
  named n (pre ++ rest) = named n pre || named n rest.
Proof.
  induction pre as [| a | a0 a1 pre IH] using pairs_ind; intros Hev;
    try discriminate; [reflexivity|].
  cbn [app named]. rewrite IH by exact Hev. apply orb_assoc.
Qed.

Lemma queried_app w pre rest :
  Nat.even (List.length pre) = true ->
  queried w (pre ++ rest) = queried w pre || queried w rest.
Proof.
  induction pre as [| a | a0 a1 pre IH] using pairs_ind; intros Hev;
    try discriminate; [reflexivity|].
  cbn [app queried]. rewrite IH by exact Hev. apply orb_assoc.
Qed.

Lemma chosen_swap entry pre a0 a1 b0 b1 post :
  Nat.even (List.length pre) = true ->
  chosen entry (pre ++ b0 :: b1 :: a0 :: a1 :: post)
  = chosen entry (pre ++ a0 :: a1 :: b0 :: b1 :: post).
Proof.
  intros Hev.
  assert (forall n, named n (pre ++ b0 :: b1 :: a0 :: a1 :: post)
                    = named n (pre ++ a0 :: a1 :: b0 :: b1 :: post)) as Hn.
  { intros n. rewrite !named_app by exact Hev. cbn [named].
    f_equal. rewrite !orb_assoc. f_equal. apply orb_comm. }
  assert (forall w, queried w (pre ++ b0 :: b1 :: a0 :: a1 :: post)
                    = queried w (pre ++ a0 :: a1 :: b0 :: b1 :: post)) as Hq.
  { intros w. rewrite !queried_app by exact Hev. cbn [queried].
    f_equal. rewrite !orb_assoc. f_equal. apply orb_comm. }
  unfold chosen. rewrite !Hn, !Hq. reflexivity.
Qed.

Lemma modelInfo_loop_absent models name rv h :
  ~ In name models -> modelInfo_loop lib models name rv h = (Value rv, h).
Proof.
  induction models as [|m models IH]; intros Hn; cbn [modelInfo_loop];
    [reflexivity|].
  destruct (String.eqb_spec m name) as [->|_].
  - exfalso. apply Hn. left. reflexivity.
  - apply IH. intros Hin. apply Hn. right. exact Hin.
Qed.

Lemma modelInfo_loop_throws models name rv h what :
  In name models ->
  lib h (show_model_info name) = Throws what ->
  modelInfo_loop lib models name rv h
  = (Exception what, h ++ [show_model_info name]).
Proof.
  induction models as [|m models IH]; intros Hin Ht; [contradiction|].
  cbn [modelInfo_loop]. destruct (String.eqb_spec m name) as [->|Hne].
  - unfold bind, invoke. rewrite Ht. reflexivity.
  - destruct Hin as [->|Hin]; [contradiction|]. auto.
Qed.

(** X16. A library exception is caught and returned as text with the
    error flag set when it is thrown by the request of a pull, copy,
    delete, model list, running model list, generate or chat operation,
    or by the model information request once the model was found in the
    list. A load and an unload whose library call returns give the
    library's boolean answer and its negation as the error flag. *)
Theorem exceptions_are_stringified args h0 entry s h :
  parsed conv lib args h0 entry s h ->
  (forall c what,
     handled (chosen entry args) = true ->
     request (chosen entry args) s = Some c ->
     lib h c = Throws what ->
     __ollama__ conv lib args 2 h0
     = (Value (ov_string what, ov_bool true), h ++ [c])) /\
  (forall models what,
     chosen entry args = ModelInfo ->
     lib h list_models = Returns models ->
     In (modelInfoName s) models ->
     lib (h ++ [list_models]) (show_model_info (modelInfoName s)) = Throws what ->
     __ollama__ conv lib args 2 h0
     = (Value (ov_string what, ov_bool true),
        h ++ [list_models; show_model_info (modelInfoName s)])) /\
  (forall b : bool,
     chosen entry args = Load ->
     lib h (load_model (source s)) = Returns b ->
     __ollama__ conv lib args 2 h0
     = (Value (ov_bool b, ov_bool (negb b)), h ++ [load_model (source s)])) /\
  (forall b : bool,
     chosen entry args = Unload ->
     lib h (unload_model (source s)) = Returns b ->
     __ollama__ conv lib args 2 h0
     = (Value (ov_bool b, ov_bool (negb b)), h ++ [unload_model (source s)])).
Proof.
  intros Hp. rewrite (ollama_parsed _ _ _ _ _ Hp).
  rewrite <- (parsed_task _ _ _ _ _ Hp).
  split; [|split; [|split]].
  - intros c what Hh Hr Ht.
    destruct (task_of s) eqn:Hc; try discriminate Hh; select Hc;
      communicate_with_flags; cbn [request] in Hr.
    6:{ unfold inference.
        destruct (String.length (model s) =? 0)%nat; [discriminate|].
        destruct (has_prompt s); cbn [negb andb].
        - inversion Hr; subst c. unfold try_catch, bind, invoke.
          rewrite Ht. reflexivity.
        - destruct (has_messages s); [|discriminate]. cbn [negb andb].
          inversion Hr; subst c. unfold try_catch, bind, invoke.
          rewrite Ht. reflexivity. }
    all: try destruct (return_cellstr s).
    all: inversion Hr; subst c; unfold try_catch, bind, invoke;
      rewrite Ht; reflexivity.
  - intros models what Hc Hl Hin Ht. select Hc. communicate_with_flags.
    unfold bind at 1, invoke at 1. rewrite Hl. unfold try_catch.
    rewrite (modelInfo_loop_throws _ _ _ _ _ Hin Ht).
    rewrite <- app_assoc. reflexivity.
  - intros b Hc Hl. select Hc. communicate_with_flags.
    unfold bind, invoke. rewrite Hl. reflexivity.
  - intros b Hc Hl. select Hc. communicate_with_flags.
    unfold bind, invoke. rewrite Hl. reflexivity.
Qed.

(** C1. The requests made outside a [try] block: an exception thrown by
    the library's [load_model] or [unload_model], or by the [list_models]
    call that precedes the model information, is not caught. It leaves
    [__ollama__] as it was thrown, and no output is returned. *)
Theorem uncaught_exceptions_propagate args h0 entry s h what :
  parsed conv lib args h0 entry s h ->
  (chosen entry args = Load ->
   lib h (load_model (source s)) = Throws what ->
   __ollama__ conv lib args 2 h0
   = (Exception what, h ++ [load_model (source s)])) /\
  (chosen entry args = Unload ->
   lib h (unload_model (source s)) = Throws what ->
   __ollama__ conv lib args 2 h0
   = (Exception what, h ++ [unload_model (source s)])) /\
  (chosen entry args = ModelInfo ->
   lib h list_models = Throws what ->
   __ollama__ conv lib args 2 h0 = (Exception what, h ++ [list_models])).
Proof.
  intros Hp. rewrite (ollama_parsed _ _ _ _ _ Hp).
  rewrite <- (parsed_task _ _ _ _ _ Hp).
  split; [|split]; intros Hc Ht; select Hc; communicate_with_flags;
    unfold bind, invoke; rewrite Ht; reflexivity.
Qed.



(** C10. When model information is the operation selected and the name
    given with ['modelInfo'] is not among the names the library lists, the
    call returns after listing the models with the first output
    unassigned, and its error flag is the one set when the call was
    entered, the negation of the first probe: no later probe refreshes
    it. A server that answered only at the address of a ['serverURL'] pair
    therefore leaves the error flag true. *)
Theorem absent_model_information args h0 entry s h name models :
  parsed conv lib args h0 entry s h ->
  chosen entry args = ModelInfo ->
  last_value "modelInfo" args = Some (ov_string name) ->
  lib h list_models = Returns models ->
  ~ In name models ->
  __ollama__ conv lib args 2 h0
  = (Value (ov_undef, ov_bool (negb entry)), h ++ [list_models]).
Proof.
  intros Hp Hc Hlast Hl Hn. rewrite (ollama_parsed _ _ _ _ _ Hp).
  rewrite <- (parsed_task _ _ _ _ _ Hp) in Hc.
  pose proof (parsed_facts _ _ _ _ _ Hp) as (_ & Hs & _).
  destruct Hp as (_ & _ & Hp). apply parse_args_modelInfoName in Hp.
  rewrite Hlast in Hp. inversion Hp as [Hname].
  assert (retval s = (ov_undef, ov_bool (negb entry))) as Hrv.
  { unfold summary in Hs. cbn in Hs.
    repeat match goal with H : _ /\ _ |- _ => destruct H end. assumption. }
  select Hc. communicate_with_flags.
  unfold bind at 1, invoke at 1. rewrite Hl. unfold try_catch.
  rewrite <- Hname, modelInfo_loop_absent by exact Hn.
  rewrite Hrv. reflexivity.
Qed.

Lemma parsing_call_not_lifecycle t :
  forallb parsing_call t = true -> existsb lifecycle_call t = false.
Proof.
  induction t as [|c t IH]; [reflexivity|]. cbn [forallb existsb].
  intros H. apply andb_prop in H. destruct H as [Hc Ht].
  rewrite (IH Ht), orb_false_r. destruct c; try discriminate; reflexivity.
Qed.

(** C2, as the code has it. An argument list that names two different
    parameters among ['loadModel'], ['pullModel'], ['copyModel'],
    ['deleteModel'] and ['unloadModel'] never gets past the parsing loop:
    the call makes no model management request, and it ends with the
    host's error, unless it ended before that with the early return of a
    ['serverURL'] pair whose server does not answer or with an exception
    of a library call made while parsing. *)
Theorem one_management_parameter args nargout h0 n1 n2 r h' :
  In n1 lifecycle_parameters -> In n2 lifecycle_parameters -> n1 <> n2 ->
  named n1 args = true -> named n2 args = true ->
  __ollama__ conv lib args nargout h0 = (r, h') ->
  stopped lib r h' /\
  exists t,
    h' = h0 ++ t /\ forallb parsing_call t = true /\
    existsb lifecycle_call t = false.
Proof.
  intros In1 In2 Hne N1 N2 H. apply ollama_cases in H.
  destruct H as [(Hs & t & -> & Ht) | (_ & entry & s & h & Hp & _)].
  - split; [exact Hs|]. exists t. auto using parsing_call_not_lifecycle.
  - exfalso. apply parsed_facts in Hp. destruct Hp as (_ & Hs & [Hx _] & _).
    unfold summary in Hs. cbn in Hs.
    repeat match goal with H : _ /\ _ |- _ => destruct H end.
    unfold lifecycle_parameters in In1, In2. cbn [In] in In1, In2.
    repeat match goal with
           | H : _ \/ _ |- _ => destruct H
           | H : False |- _ => contradiction
           end; subst; try congruence.
    all: repeat match goal with
                | H : _ = named _ _ |- _ => rewrite H in Hx; clear H
                end.
    all: rewrite N1, N2 in Hx; cbn in Hx; lia.
Qed.

(** C5, as the code has it. An argument list of odd length, or with a
    pair whose name or value is empty or whose name is not a character
    vector, never gets past the parsing loop: the call makes no request
    of an operation, and it ends with the host's error, unless it ended
    before that with the early return of a ['serverURL'] pair whose
    server does not answer or with an exception of a library call made
    while parsing. *)
Theorem malformed_arguments args nargout h0 r h' :
  Nat.even (List.length args) = false \/ malformed args = true ->
  __ollama__ conv lib args nargout h0 = (r, h') ->
  stopped lib r h' /\
  exists t, h' = h0 ++ t /\ forallb parsing_call t = true.
Proof.
  intros Hbad H. apply ollama_cases in H.
  destruct H as [H | (_ & entry & s & h & Hp & _)]; [exact H|].
  exfalso. pose proof (parsed_facts _ _ _ _ _ Hp) as (Hm & _).
  destruct Hp as (_ & Hev & _). destruct Hbad; congruence.
Qed.


(** C8, as the code has it. A pair whose name is a non-empty character
    vector that is not a parameter name, and whose value is not empty, is
    ignored: the call does what it does without the pair. *)
Theorem unrecognized_pair_is_ignored name v pre post nargout h0 :
  name <> "" -> recognized name = false -> isempty v = false ->
  Nat.even (List.length pre) = true ->
  __ollama__ conv lib (pre ++ ov_string name :: v :: post) nargout h0
  = __ollama__ conv lib (pre ++ post) nargout h0.
Proof.
  intros Hne Hrec Hv Hev. unfold __ollama__.
  destruct (negb (nargout =? 2)%Z); [reflexivity|].
  unfold bind at 1 3. destruct (invoke lib is_running h0) as [[entry|?|?] h1];
    try reflexivity.
  rewrite !even_mod2, !even_app by exact Hev. cbn [List.length Nat.even].
  destruct (negb (Nat.even (List.length post))); [reflexivity|].
  unfold bind. rewrite !parse_args_app by exact Hev.
  destruct (parse_args conv lib pre (initial entry) h1) as [[[s|?]|?|?] h2];
    try reflexivity.
  cbn [parse_args]. unfold bind.
  assert (malformed_pair (ov_string name) v = false) as Hm.
  { unfold malformed_pair. rewrite Hv, isempty_string.
    destruct name; [contradiction|reflexivity]. }
  destruct (parse_pair_wellformed (ov_string name) v s Hm)
    as (name' & Hn & _ & ->).
  inversion Hn; subst name'.
  rewrite parameter_unrecognized by exact Hrec. reflexivity.
Qed.

End OllamaFacts.

(* ================================================================== *)
(** * Properties of [fig2base64] *)
(* ================================================================== *)

Lemma fold_left_append {A B} (f : A -> list B) (l : list A) (acc : list B) :
  fold_left (fun acc x => acc ++ f x) l acc = acc ++ flat_map f l.
Proof.
  revert acc. induction l as [|x l IH]; intros acc; cbn [fold_left flat_map].
  - rewrite app_nil_r. reflexivity.
  - rewrite IH, app_assoc. reflexivity.
Qed.

Lemma length_flat_map_blocks {A B} (f : A -> list B) (n : nat) (l : list A) :
  (forall x, List.length (f x) = n) ->
  List.length (flat_map f l) = List.length l * n.
Proof.
  intros Hn. induction l as [|x l IH]; [reflexivity|].
  cbn [flat_map List.length]. rewrite length_app, Hn, IH. lia.
Qed.

Lemma nth_flat_map_blocks {A B} (f : A -> list B) (n : nat) (l : list A)
    (d : B) (a : A) :
  (forall x, List.length (f x) = n) ->
  forall i j, i < List.length l -> j < n ->
    nth (i * n + j) (flat_map f l) d = nth j (f (nth i l a)) d.
Proof.
  intros Hn. induction l as [|x l IH]; intros i j Hi Hj; [inversion Hi|].
  cbn [flat_map]. destruct i as [|i].
  - cbn [Nat.mul Nat.add nth]. apply app_nth1. rewrite Hn. exact Hj.
  - rewrite app_nth2 by (rewrite Hn; lia).
    rewrite Hn. replace (S i * n + j - n) with (i * n + j) by lia.
    cbn [nth]. apply IH; [cbn in Hi; lia | exact Hj].
Qed.

Section FigureFacts.

Variable conv : conversions.
Variable tk : toolkit.

Lemma store_row_flat data cols pixels r :
  store_row data cols pixels r
  = pixels ++ flat_map (pixel_bytes data r) (seq 0 cols).
Proof. apply (fold_left_append (pixel_bytes data r)). Qed.

Lemma map_image_flat data rows cols :
  map_image data rows cols
  = flat_map (fun r => flat_map (pixel_bytes data r) (seq 0 cols)) (seq 0 rows).
Proof.
  unfold map_image.
  rewrite <- (app_nil_l (flat_map _ (seq 0 rows))).
  generalize (@nil Byte.byte) as pixels.
  induction (seq 0 rows) as [|r l IH]; intros pixels; cbn [fold_left flat_map].
  - rewrite app_nil_r. reflexivity.
  - rewrite IH, store_row_flat, app_assoc. reflexivity.
Qed.

Lemma to_uint32_small n : (Z.of_nat n < 2 ^ 32)%Z -> to_uint32 n = Z.of_nat n.
Proof. intros H. unfold to_uint32. apply Z.mod_small. lia. Qed.

(** C7. For a handle of a figure whose snapshot has sides below 2^32
    (the sizes fpng takes are 32-bit), the image handed to fpng holds the
    first three channels of every pixel in row-major order: the byte at
    position [(r * cols + c) * 3 + k] is [data(r, c, k)]; it is encoded
    with width the number of columns, height the number of rows and 3
    channels; and the function returns the Base64 text of the PNG, or
    raises the host's error when fpng fails. *)
Theorem fig2base64_encodes_the_snapshot hfig h go data nargout :
  double_value conv hfig = host_ok h ->
  get_object tk h = Some go ->
  isa tk go "figure" = true ->
  uint8_array_value tk (get_pixels tk go) = host_ok data ->
  (Z.of_nat (dim1 data) < 2 ^ 32)%Z ->
  (Z.of_nat (dim2 data) < 2 ^ 32)%Z ->
  let rows := dim1 data in
  let cols := dim2 data in
  let pixels := map_image data rows cols in
  List.length pixels = rows * cols * 3 /\
  (forall r c k, r < rows -> c < cols -> k < 3 ->
     nth ((r * cols + c) * 3 + k) pixels Byte.x00 = elem data r c k) /\
  match fpng_encode_image_to_memory tk pixels (Z.of_nat cols) (Z.of_nat rows) 3 with
  | Some png =>
      fig2base64 conv tk [hfig] nargout
      = host_ok (returned (Base64_Encode tk (string_of_list_byte png)) nargout)
  | None =>
      fig2base64 conv tk [hfig] nargout
      = host_error "fig2base64: unable to convert image to PNG."
  end.
Proof.
  intros Hh Hgo Hfig Hdata Hrows Hcols rows cols pixels.
  assert (forall r x, List.length (pixel_bytes data r x) = 3) as H3
    by reflexivity.
  assert (forall r, List.length (flat_map (pixel_bytes data r) (seq 0 cols))
                    = cols * 3) as Hrow.
  { intros r. rewrite (length_flat_map_blocks _ 3) by apply H3.
    rewrite length_seq. reflexivity. }
  split; [|split].
  - unfold pixels. rewrite map_image_flat.
    rewrite (length_flat_map_blocks _ (cols * 3)) by apply Hrow.
    rewrite length_seq. lia.
  - intros r c k Hr Hc Hk. unfold pixels. rewrite map_image_flat.
    replace ((r * cols + c) * 3 + k) with (r * (cols * 3) + (c * 3 + k)) by lia.
    rewrite (nth_flat_map_blocks _ (cols * 3) _ _ 0)
      by (try apply Hrow; rewrite ?length_seq; lia).
    rewrite seq_nth by exact Hr. cbn [Nat.add].
    rewrite (nth_flat_map_blocks _ 3 _ _ 0)
      by (try apply H3; rewrite ?length_seq; lia).
    rewrite seq_nth by exact Hc. cbn [Nat.add]. unfold pixel_bytes.
    destruct k as [|[|[|k]]]; [reflexivity | reflexivity | reflexivity | lia].
  - unfold fig2base64, xdouble_value. rewrite Hh, Hgo, Hfig. cbn [negb].
    rewrite Hdata, !to_uint32_small by assumption.
    fold rows cols pixels.
    destruct (fpng_encode_image_to_memory tk pixels _ _ 3); reflexivity.
Qed.

End FigureFacts.

(* ================================================================== *)
(** * More of the binding's behaviour *)
(* ================================================================== *)

Lemma options_get_set_same key v o : options_get key (options_set key v o) = Some v.
Proof.
  induction o as [|[k w] o IH]; cbn [options_set options_get].
  - rewrite String.eqb_refl. reflexivity.
  - destruct (k =? key) eqn:E; cbn [options_get]; rewrite E; auto.
Qed.

Lemma options_get_set_other key key' v o :
  key' <> key -> options_get key' (options_set key v o) = options_get key' o.
Proof.
  intros Hne. induction o as [|[k w] o IH]; cbn [options_set options_get].
  - destruct (String.eqb_spec key key'); [congruence|reflexivity].
  - destruct (String.eqb_spec k key) as [->|Hk]; cbn [options_get].
    + destruct (String.eqb_spec key key'); [congruence|reflexivity].
    + destruct (k =? key'); auto.
Qed.

Lemma kind_in_absent fields key :
  ~ In key (map fst fields) -> kind_in fields key = None.
Proof.
  induction fields as [|[k kind] fields IH]; [reflexivity|].
  cbn [map fst In kind_in]. intros Hn.
  destruct (String.eqb_spec k key); [tauto|]. apply IH. tauto.
Qed.

Lemma flat_map_nth_seq {A B} (f : A -> list B) (l : list A) (d : A) :
  flat_map (fun i => f (nth i l d)) (seq 0 (List.length l)) = flat_map f l.
Proof.
  induction l as [|a l IH]; [reflexivity|].
  cbn [List.length seq flat_map nth]. f_equal.
  rewrite <- seq_shift, flat_map_concat_map, map_map, <- flat_map_concat_map.
  exact IH.
Qed.

Lemma history_cell_at (turns : list (string * string)) (i : nat) :
  i < List.length turns ->
  let msg := mkCell (List.length turns) 3
               (map (fun t => ov_string (fst t)) turns
                ++ repeat (ov_cell 0 2 []) (List.length turns)
                ++ map (fun t => ov_string (snd t)) turns) in
  cell_at2 msg i 0 = ov_string (fst (nth i turns ("", ""))) /\
  cell_at2 msg i 1 = ov_cell 0 2 [] /\
  cell_at2 msg i 2 = ov_string (snd (nth i turns ("", ""))).
Proof.
  intros Hi msg. unfold cell_at2, cell_at, msg. clear msg.
  cbn [cell_rows cell_data].
  replace (i + List.length turns * 0) with i by lia.
  replace (i + List.length turns * 1) with (List.length turns + i) by lia.
  replace (i + List.length turns * 2)
    with (List.length turns + List.length turns + i) by lia.
  repeat split.
  - rewrite app_nth1 by (rewrite length_map; lia).
    rewrite (nth_indep _ ov_undef (ov_string (fst ("", ""))))
      by (rewrite length_map; lia).
    rewrite (map_nth (fun t : string * string => ov_string (fst t))). reflexivity.
  - rewrite app_nth2 by (rewrite length_map; lia).
    rewrite length_map.
    rewrite app_nth1 by (rewrite repeat_length; lia).
    replace (List.length turns + i - List.length turns) with i by lia.
    apply nth_repeat_lt. lia.
  - rewrite app_nth2 by (rewrite length_map; lia).
    rewrite length_map.
    rewrite app_nth2 by (rewrite repeat_length; lia).
    rewrite repeat_length.
    replace (List.length turns + List.length turns + i
             - List.length turns - List.length turns)
      with i by lia.
    rewrite (nth_indep _ ov_undef (ov_string (snd ("", ""))))
      by (rewrite length_map; lia).
    rewrite (map_nth (fun t : string * string => ov_string (snd t))). reflexivity.
Qed.

Lemma map_nth_seq_id {A} (l : list A) (d : A) :
  map (fun i => nth i l d) (seq 0 (List.length l)) = l.
Proof.
  induction l as [|a l IH]; [reflexivity|].
  cbn [List.length seq map nth]. f_equal.
  rewrite <- seq_shift, map_map. exact IH.
Qed.

Lemma quiet_filter t : forallb quiet t = true -> filter probing t = [].
Proof.
  induction t as [|c t IH]; [reflexivity|]. cbn [forallb filter].
  intros H. apply andb_prop in H. destruct H as [Hc Ht].
  unfold quiet in Hc. apply negb_true_iff in Hc. rewrite Hc. auto.
Qed.








Section MoreOllamaFacts.

Variable conv : conversions.
Variable lib : library.

Lemma parameter_details name a1 s h s' h' :
  parameter conv lib name a1 s h = (Value (Continue s'), h') ->
  details name a1 s s'.
Proof.
  revert h s' h'. pattern name, (parameter conv lib name a1 s).
  apply (parameter_cases conv lib); clear name.
  all: intros; match goal with H : _ = (Value _, _) |- _ => unfold_params H; run end.
  all: try discriminate.
  all: strings; subst.
  all: unfold details; cbn.
  all: rewrite_tests.
  all: rewrite ?orb_false_r, ?andb_true_r, ?andb_false_r, ?orb_true_r.
  all: try (repeat split; auto; congruence).
  - repeat split; auto. exists x2. auto using string_value_inv.
  - repeat split; auto. eexists. split; reflexivity.
Qed.

(** ** What the loop keeps of each parameter *)

Lemma parse_args_last n (f : vars -> string) :
  (forall name a1 s s',
      details name a1 s s' ->
      if name =? n then a1 = ov_string (f s') else f s' = f s) ->
  forall args s h s' h',
    parse_args conv lib args s h = (Value (Continue s'), h') ->
    match last_value n args with
    | Some v => v = ov_string (f s')
    | None => f s' = f s
    end.
Proof.
  intros Hf.
  induction args as [| a | a0 a1 rest IH] using pairs_ind; intros s h s' h' H.
  - inversion H. reflexivity.
  - inversion H. reflexivity.
  - cbn [parse_args] in H. apply bind_inv in H.
    destruct H as [(fl & h1 & E & H) | [(msg & _ & ?) | (what & _ & ?)]];
      try discriminate.
    destruct fl as [s1|r]; [|inversion H].
    apply parse_pair_cases in E.
    destruct E as [(_ & _ & msg & ?) | (Hwf & name & -> & Hv & E)];
      try discriminate.
    apply IH in H. apply parameter_details in E. apply Hf in E.
    cbn [last_value is_name].
    destruct (last_value n rest) as [v|]; [exact H|].
    destruct (name =? n); congruence.
Qed.

Lemma parse_args_text n (f : vars -> string) :
  (forall name a1 s s',
      details name a1 s s' ->
      if name =? n then a1 = ov_string (f s') else f s' = f s) ->
  forall args s h s' h',
    parse_args conv lib args s h = (Value (Continue s'), h') ->
    f s' = text_of n (f s) args.
Proof.
  intros Hf args s h s' h' H. apply (parse_args_last n f Hf) in H.
  unfold text_of. destruct (last_value n args) as [v|]; [subst v|]; auto.
Qed.

Lemma parse_args_sysmsg args :
  forall s h s' h',
    parse_args conv lib args s h = (Value (Continue s'), h') ->
    match last_value "systemMessage" args with
    | Some v => exists x, v = ov_string x /\
                          sysmsg s' = (if x =? "default" then "" else x)
    | None => sysmsg s' = sysmsg s
    end.
Proof.
  induction args as [| a | a0 a1 rest IH] using pairs_ind; intros s h s' h' H.
  - inversion H. reflexivity.
  - inversion H. reflexivity.
  - cbn [parse_args] in H. apply bind_inv in H.
    destruct H as [(fl & h1 & E & H) | [(msg & _ & ?) | (what & _ & ?)]];
      try discriminate.
    destruct fl as [s1|r]; [|inversion H].
    apply parse_pair_cases in E.
    destruct E as [(_ & _ & msg & ?) | (Hwf & name & -> & Hv & E)];
      try discriminate.
    apply IH in H. apply parameter_details in E.
    destruct E as (_ & _ & _ & E & _).
    cbn [last_value is_name].
    destruct (last_value "systemMessage" rest) as [v|]; [exact H|].
    destruct (name =? "systemMessage"); [|congruence].
    destruct E as (x & -> & Hx). exists x. split; congruence.
Qed.

Ltac pick Hc :=
  unfold task_of in Hc;
  repeat match type of Hc with
         | (if ?b then _ else _) = _ =>
             let F := fresh "Flag" in destruct b eqn:F; try discriminate Hc
         end;
  clear Hc.

Ltac by_flags :=
  unfold communicate;
  repeat match goal with
         | F : ?b = _ |- context [if ?b then _ else _] => rewrite F
         end.

Lemma flags_of_parsed args h0 entry s h :
  parsed conv lib args h0 entry s h ->
  summary (fun n => named n args) (fun w => queried w args) (initial entry) s.
Proof. intros Hp. apply parsed_facts in Hp. apply Hp. Qed.

Lemma communicate_inference s :
  task_of s = Inference -> communicate lib s = inference lib s.
Proof. intros Hc. pick Hc. by_flags. reflexivity. Qed.

(** X1. The request of an inference carries the text of the last
    ['model'], ['prompt'] and ['think'] pairs and of the last
    ['systemMessage'] pair: an earlier pair of the same name is overwritten,
    ['think'] is "false" when not given, and the system message is empty
    when not given or given as ['default']. *)
Theorem inference_request_carries_the_last_values args h0 entry s h :
  parsed conv lib args h0 entry s h ->
  model s = text_of "model" "" args /\
  prompt s = text_of "prompt" "" args /\
  think s = text_of "think" "false" args /\
  sysmsg s = system_of args /\
  (chosen entry args = Inference ->
   named "model" args = true -> named "prompt" args = true ->
   exists r,
     __ollama__ conv lib args 2 h0
     = (r, h ++ [generate (text_of "model" "" args) (text_of "prompt" "" args)
                          (text_of "think" "false" args) (system_of args)
                          (options s) (images s)])) /\
  (chosen entry args = Inference ->
   named "model" args = true -> named "message" args = true ->
   exists r,
     __ollama__ conv lib args 2 h0
     = (r, h ++ [chat (text_of "model" "" args) (messages s)
                      (text_of "think" "false" args) (system_of args)
                      (options s)])).
Proof.
  intros Hp. pose proof Hp as (_ & _ & Hrun).
  assert (model s = text_of "model" "" args) as Hm.
  { apply (parse_args_text "model" model) in Hrun; [exact Hrun|].
    intros name a1 s0 s1 D. apply D. }
  assert (prompt s = text_of "prompt" "" args) as Hpr.
  { apply (parse_args_text "prompt" prompt) in Hrun; [exact Hrun|].
    intros name a1 s0 s1 D. apply D. }
  assert (think s = text_of "think" "false" args) as Ht.
  { apply (parse_args_text "think" think) in Hrun; [exact Hrun|].
    intros name a1 s0 s1 D. apply D. }
  assert (sysmsg s = system_of args) as Hs.
  { apply parse_args_sysmsg in Hrun. unfold system_of, text_of.
    destruct (last_value "systemMessage" args) as [v|].
    - destruct Hrun as (x & -> & Hx). exact Hx.
    - exact Hrun. }
  pose proof (flags_of_parsed _ _ _ _ _ Hp) as Hf.
  unfold summary in Hf. cbn in Hf.
  destruct Hf as (_ & _ & _ & _ & _ & _ & _ & _ & _ & _ & _
                  & Hhp & Hhm & Hlen & _).
  repeat split; try assumption.
  - intros Hc Hmd Hpn. rewrite (ollama_parsed _ _ _ _ _ _ _ Hp).
    rewrite <- (parsed_task _ _ _ _ _ _ _ Hp) in Hc.
    rewrite (communicate_inference s Hc). unfold inference.
    rewrite Hlen, Hhp, Hmd, Hpn. cbn [negb andb].
    rewrite <- Hm, <- Hpr, <- Ht, <- Hs.
    unfold try_catch, bind, invoke.
    destruct (lib h (generate _ _ _ _ _ _)); eexists; reflexivity.
  - intros Hc Hmd Hms. rewrite (ollama_parsed _ _ _ _ _ _ _ Hp).
    rewrite <- (parsed_task _ _ _ _ _ _ _ Hp) in Hc.
    pose proof (parsed_facts _ _ _ _ _ _ _ Hp) as (_ & _ & [_ Hx] & _).
    rewrite (communicate_inference s Hc). unfold inference.
    rewrite Hhp, Hhm, Hms, andb_true_r in Hx.
    rewrite Hlen, Hhp, Hhm, Hmd, Hms, Hx. cbn [negb andb].
    rewrite <- Hm, <- Ht, <- Hs.
    unfold try_catch, bind, invoke.
    destruct (lib h (chat _ _ _ _ _)); eexists; reflexivity.
Qed.

(** X15. An inference whose library call returns gives the response as
    JSON text in the first output and false in the error flag, for a
    prompt and for a chat alike. *)
Theorem inference_returns_the_response args h0 entry s h :
  parsed conv lib args h0 entry s h ->
  chosen entry args = Inference ->
  named "model" args = true ->
  (forall response,
     named "prompt" args = true ->
     lib h (generate (model s) (prompt s) (think s) (sysmsg s)
              (options s) (images s)) = Returns response ->
     __ollama__ conv lib args 2 h0
     = (Value (ov_string (as_json_string response), ov_bool false),
        h ++ [generate (model s) (prompt s) (think s) (sysmsg s)
                (options s) (images s)])) /\
  (forall response,
     named "message" args = true ->
     lib h (chat (model s) (messages s) (think s) (sysmsg s) (options s))
     = Returns response ->
     __ollama__ conv lib args 2 h0
     = (Value (ov_string (as_json_string response), ov_bool false),
        h ++ [chat (model s) (messages s) (think s) (sysmsg s) (options s)])).
Proof.
  intros Hp Hc Hmd.
  pose proof (flags_of_parsed _ _ _ _ _ Hp) as Hf.
  unfold summary in Hf. cbn in Hf.
  destruct Hf as (_ & _ & _ & _ & _ & _ & _ & _ & _ & _ & _
                  & Hhp & Hhm & Hlen & _).
  rewrite (ollama_parsed _ _ _ _ _ _ _ Hp).
  rewrite <- (parsed_task _ _ _ _ _ _ _ Hp) in Hc.
  rewrite (communicate_inference s Hc). unfold inference.
  split.
  - intros response Hpn Hl.
    rewrite Hlen, Hhp, Hmd, Hpn. cbn [negb andb].
    unfold try_catch, bind, invoke. rewrite Hl. reflexivity.
  - intros response Hms Hl.
    pose proof (parsed_facts _ _ _ _ _ _ _ Hp) as (_ & _ & [_ Hx] & _).
    rewrite Hhp, Hhm, Hms, andb_true_r in Hx.
    rewrite Hlen, Hhp, Hhm, Hmd, Hms, Hx. cbn [negb andb].
    unfold try_catch, bind, invoke. rewrite Hl. reflexivity.
Qed.

(** Induction over the pairs a completed run of the loop accepted. *)
Lemma parse_args_run (P : list octave_value -> vars -> list call ->
                          vars -> list call -> Prop) :
  (forall s h, P [] s h s h) ->
  (forall a s h, P [a] s h s h) ->
  (forall name a1 rest s h s1 h1 s' h',
      isempty a1 = false ->
      parameter conv lib name a1 s h = (Value (Continue s1), h1) ->
      P rest s1 h1 s' h' ->
      P (ov_string name :: a1 :: rest) s h s' h') ->
  forall args s h s' h',
    parse_args conv lib args s h = (Value (Continue s'), h') ->
    P args s h s' h'.
Proof.
  intros H0 H1 H2.
  induction args as [| a | a0 a1 rest IH] using pairs_ind; intros s h s' h' H.
  - inversion H. apply H0.
  - inversion H. apply H1.
  - cbn [parse_args] in H. apply bind_inv in H.
    destruct H as [(fl & h1 & E & H) | [(msg & _ & ?) | (what & _ & ?)]];
      try discriminate.
    destruct fl as [s1|r]; [|inversion H].
    apply parse_pair_cases in E.
    destruct E as [(_ & _ & msg & ?) | (Hwf & name & -> & Hv & E)];
      try discriminate.
    eapply H2; eauto.
Qed.

Lemma parse_args_induct (P : list octave_value -> vars -> vars -> Prop) :
  (forall s, P [] s s) ->
  (forall a s, P [a] s s) ->
  (forall name a1 rest s s1 s',
      isempty a1 = false ->
      summary (String.eqb name) (fun w => (name =? "Query") && is_name w a1) s s1 ->
      details name a1 s s1 ->
      P rest s1 s' ->
      P (ov_string name :: a1 :: rest) s s') ->
  forall args s h s' h',
    parse_args conv lib args s h = (Value (Continue s'), h') -> P args s s'.
Proof.
  intros H0 H1 H2.
  apply (parse_args_run (fun args s _ s' _ => P args s s')); auto.
  intros name a1 rest s h s1 h1 s' h' Hv E IH.
  eapply H2; eauto using parameter_summary, parameter_details.
Qed.

Lemma parse_args_listing args s h s' h' :
  parse_args conv lib args s h = (Value (Continue s'), h') ->
  do_listModels s && do_listRunningModels s = false ->
  do_listModels s' && do_listRunningModels s' = false.
Proof.
  revert args s h s' h'.
  apply (parse_args_induct
           (fun _ s s' =>
              do_listModels s && do_listRunningModels s = false ->
              do_listModels s' && do_listRunningModels s' = false)); auto.
  intros name a1 rest s s1 s' _ _ D IH Hs. apply IH. apply D. exact Hs.
Qed.

Lemma parse_args_image_pairs args s h s' h' :
  parse_args conv lib args s h = (Value (Continue s'), h') ->
  Nat.b2n (has_images s) + image_pairs args = Nat.b2n (has_images s').
Proof.
  revert args s h s' h'.
  apply (parse_args_induct
           (fun args s s' =>
              Nat.b2n (has_images s) + image_pairs args
              = Nat.b2n (has_images s'))); auto.
  intros name a1 rest s s1 s' _ _ D IH.
  destruct D as (_ & _ & _ & _ & _ & _ & _ & D & _).
  cbn [image_pairs]. unfold image_name. cbn [is_name]. rewrite <- IH.
  destruct ((name =? "imageFile") || (name =? "imageBase64")).
  - destruct D as [-> ->]. reflexivity.
  - destruct D as [-> _]. reflexivity.
Qed.

(** X2. An argument list that names both ['listModels'] and
    ['listRunningModels'] never gets past the parsing loop: no operation
    is requested, and the call ends with the host's error, with the early
    return of an unreachable ['serverURL'], or with an exception of a
    library call made while parsing. *)
Theorem one_listing_parameter args nargout h0 r h' :
  named "listModels" args = true -> named "listRunningModels" args = true ->
  __ollama__ conv lib args nargout h0 = (r, h') ->
  stopped lib r h' /\
  exists t, h' = h0 ++ t /\ forallb parsing_call t = true.
Proof.
  intros N1 N2 H. apply ollama_cases in H.
  destruct H as [H | (_ & entry & s & h & Hp & _)]; [exact H|].
  exfalso. pose proof (flags_of_parsed _ _ _ _ _ Hp) as Hf.
  destruct Hp as (_ & _ & Hrun).
  apply parse_args_listing in Hrun; [|reflexivity].
  unfold summary in Hf. cbn in Hf.
  destruct Hf as (_ & _ & _ & _ & _ & _ & _ & _ & _ & Hl & Hr & _).
  rewrite Hl, Hr, N1, N2 in Hrun. discriminate.
Qed.

(** X3. An argument list with two image pairs, whether ['imageFile'],
    ['imageBase64'] or one of each, never gets past the parsing loop: no
    operation is requested. *)
Theorem one_image_parameter args nargout h0 r h' :
  2 <= image_pairs args ->
  __ollama__ conv lib args nargout h0 = (r, h') ->
  stopped lib r h' /\
  exists t, h' = h0 ++ t /\ forallb parsing_call t = true.
Proof.
  intros Hn H. apply ollama_cases in H.
  destruct H as [H | (_ & entry & s & h & Hp & _)]; [exact H|].
  exfalso. destruct Hp as (_ & _ & Hrun).
  apply parse_args_image_pairs in Hrun. cbn [initial has_images Nat.b2n] in Hrun.
  destruct (has_images s); cbn in Hrun; lia.
Qed.

Lemma parameter_keyword_error name allowed v s h :
  In (name, allowed) keywords ->
  existsb (String.eqb v) allowed = false ->
  exists msg, parameter conv lib name (ov_string v) s h = (Error msg, h).
Proof.
  unfold keywords. cbn [In]. intros Hin Hv.
  repeat (destruct Hin as [Hin|Hin]; [inversion Hin; subst; clear Hin|]);
    try contradiction.
  all: cbn [existsb] in Hv; rewrite orb_false_r in Hv;
    apply orb_false_elim in Hv; destruct Hv as [Hv1 Hv2].
  all: unfold parameter; cbn [String.eqb Ascii.eqb Bool.eqb].
  all: unfold param_Query, param_listModels, param_listRunningModels.
  all: cbn [is_string negb string_value host]; unfold bind, ret.
  all: rewrite Hv1, ?Hv2; cbn [negb]; eexists; reflexivity.
Qed.

Lemma error_at_pair name v pre post h0 entry s h :
  parsed conv lib pre h0 entry s h ->
  Nat.even (List.length post) = true ->
  (exists msg, parameter conv lib name v s h = (Error msg, h)) ->
  exists msg,
    __ollama__ conv lib (pre ++ ov_string name :: v :: post) 2 h0
    = (Error msg, h).
Proof.
  intros (Hr & Hev & Hp) Hpost Herr.
  unfold __ollama__. cbn [Z.eqb Pos.eqb negb].
  unfold bind at 1, invoke. rewrite Hr, even_mod2, even_app by exact Hev.
  cbn [List.length Nat.even]. rewrite Hpost. cbn [negb].
  unfold bind at 1. rewrite parse_args_app, Hp by exact Hev.
  cbn [parse_args]. unfold bind at 1.
  destruct (malformed_pair (ov_string name) v) eqn:Hm.
  - destruct (parse_pair_malformed conv lib (ov_string name) v s h Hm)
      as (msg & ->).
    eauto.
  - destruct (parse_pair_wellformed conv lib (ov_string name) v s Hm)
      as (name' & Hn & _ & ->).
    inversion Hn; subst name'. destruct Herr as (msg & ->). eauto.
Qed.

(** C4. When the parsing loop runs to its end and no other operation is
    selected, the call raises the host's error if no ['model'] was given
    (a given model is never empty), and if neither ['prompt'] nor
    ['message'] was given; with a model and a ['prompt'] it calls
    [ollama::generate], with a model and a ['message'] it calls
    [ollama::chat], once, and returns the response or the text of the
    exception. Both of ['prompt'] and ['message'] are never present at
    that stage: the second of the two pairs raises the host's error when
    the loop arrives at it, whatever its value, and an argument list
    naming both never gets past the parsing loop and makes no request. *)
Theorem inference_needs_a_model_and_one_input args h0 :
  (forall entry s h,
     parsed conv lib args h0 entry s h ->
     chosen entry args = Inference ->
     (named "model" args = false ->
      exists msg, __ollama__ conv lib args 2 h0 = (Error msg, h)) /\
     (named "prompt" args = false -> named "message" args = false ->
      exists msg, __ollama__ conv lib args 2 h0 = (Error msg, h)) /\
     (named "model" args = true -> named "prompt" args = true ->
      __ollama__ conv lib args 2 h0
      = (match lib h (generate (model s) (prompt s) (think s) (sysmsg s)
                               (options s) (images s)) with
         | Returns response =>
             Value (ov_string (as_json_string response), ov_bool false)
         | Throws what => Value (ov_string what, ov_bool true)
         end,
         h ++ [generate (model s) (prompt s) (think s) (sysmsg s)
                        (options s) (images s)])) /\
     (named "model" args = true -> named "message" args = true ->
      __ollama__ conv lib args 2 h0
      = (match lib h (chat (model s) (messages s) (think s) (sysmsg s)
                           (options s)) with
         | Returns response =>
             Value (ov_string (as_json_string response), ov_bool false)
         | Throws what => Value (ov_string what, ov_bool true)
         end,
         h ++ [chat (model s) (messages s) (think s) (sysmsg s) (options s)])) /\
     named "prompt" args && named "message" args = false) /\
  (forall pre name v post entry s h,
     args = pre ++ ov_string name :: v :: post ->
     parsed conv lib pre h0 entry s h ->
     Nat.even (List.length post) = true ->
     name = "message" /\ named "prompt" pre = true \/
     name = "prompt" /\ named "message" pre = true ->
     exists msg, __ollama__ conv lib args 2 h0 = (Error msg, h)) /\
  (forall nargout r h',
     named "prompt" args = true -> named "message" args = true ->
     __ollama__ conv lib args nargout h0 = (r, h') ->
     stopped lib r h' /\
     exists t, h' = h0 ++ t /\ forallb parsing_call t = true).
Proof.
  assert (forall args entry s h,
             parsed conv lib args h0 entry s h ->
             has_prompt s = named "prompt" args /\
             has_messages s = named "message" args /\
             (String.length (model s) =? 0)%nat = negb (named "model" args) /\
             named "prompt" args && named "message" args = false) as Hflags.
  { intros args0 entry s h Hp. apply parsed_facts in Hp.
    destruct Hp as (_ & Hs & [_ Hx] & _).
    unfold summary in Hs. cbn in Hs.
    repeat match goal with H : _ /\ _ |- _ => destruct H end.
    repeat split; congruence. }
  split; [|split].
  - intros entry s h Hp Hc. rewrite (ollama_parsed _ _ _ _ _ _ _ Hp).
    rewrite <- (parsed_task _ _ _ _ _ _ _ Hp) in Hc.
    destruct (Hflags _ _ _ _ Hp) as (Hpr & Hms & Hmd & Hboth).
    rewrite (communicate_inference s Hc). unfold inference.
    rewrite Hmd, Hpr, Hms.
    split; [|split; [|split; [|split]]].
    + intros ->. eexists. reflexivity.
    + intros -> ->. destruct (negb (named "model" args)); eexists; reflexivity.
    + intros -> ->. cbn [negb andb]. unfold try_catch, bind, invoke.
      destruct (lib h (generate _ _ _ _ _ _)); reflexivity.
    + intros -> Hm. rewrite Hm in Hboth |- *.
      rewrite andb_true_r in Hboth. rewrite Hboth.
      cbn [negb andb]. unfold try_catch, bind, invoke.
      destruct (lib h (chat _ _ _ _ _)); reflexivity.
    + exact Hboth.
  - intros pre name v post entry s h -> Hp Hpost Hsecond.
    apply (error_at_pair name v pre post h0 entry s h Hp Hpost).
    destruct (Hflags _ _ _ _ Hp) as (Hpr & Hms & _).
    destruct Hsecond as [[-> Hn] | [-> Hn]].
    + unfold parameter. cbn [String.eqb Ascii.eqb Bool.eqb].
      unfold param_message. rewrite Hpr, Hn. eexists. reflexivity.
    + unfold parameter. cbn [String.eqb Ascii.eqb Bool.eqb].
      unfold param_prompt. rewrite Hms, Hn. eexists. reflexivity.
  - intros nargout r h' Hpr Hms H. apply ollama_cases in H.
    destruct H as [H | (_ & entry & s & h & Hp & _)]; [exact H|].
    exfalso. destruct (Hflags _ _ _ _ Hp) as (_ & _ & _ & Hboth).
    rewrite Hpr, Hms in Hboth. discriminate.
Qed.

(** X4. ['Query'] accepts the texts 'status' and 'version' only, and
    ['listModels'] and ['listRunningModels'] the texts 'cellstr' and
    'json' only: when the loop arrives at one of them with another text,
    the call ends with the host's error and makes no library call from
    that pair on. *)
Theorem unknown_keyword_is_an_error name allowed v pre post h0 entry s h :
  In (name, allowed) keywords ->
  existsb (String.eqb v) allowed = false ->
  parsed conv lib pre h0 entry s h ->
  Nat.even (List.length post) = true ->
  exists msg,
    __ollama__ conv lib (pre ++ ov_string name :: ov_string v :: post) 2 h0
    = (Error msg, h).
Proof.
  intros Hin Hv Hp Hpost. apply (error_at_pair _ _ _ _ _ entry s); auto.
  exact (parameter_keyword_error name allowed v s h Hin Hv).
Qed.

Lemma parse_args_managed args s h s' h' :
  parse_args conv lib args s h = (Value (Continue s'), h') ->
  match last_managed args with
  | Some (name, v) => names_the_model name v s'
  | None => source s' = source s /\ target s' = target s
  end.
Proof.
  revert args s h s' h'.
  apply (parse_args_induct
           (fun args s s' =>
              match last_managed args with
              | Some (name, v) => names_the_model name v s'
              | None => source s' = source s /\ target s' = target s
              end)); [cbn; auto | cbn; auto | ].
  intros name a1 rest s s1 s' _ _ D IH. cbn [last_managed].
  destruct (last_managed rest) as [[n v]|]; [exact IH|].
  destruct IH as [Hsrc Htgt].
  destruct D as (_ & _ & _ & _ & D & _).
  unfold managed, lifecycle_parameters. cbn [existsb].
  rewrite orb_false_r. unfold names_the_model.
  destruct (name =? "loadModel") eqn:E1; cbn [orb] in *.
  { apply String.eqb_eq in E1. subst name. cbn. rewrite Hsrc. apply D. }
  destruct (name =? "pullModel") eqn:E2; cbn [orb] in *.
  { apply String.eqb_eq in E2. subst name. cbn. rewrite Hsrc. apply D. }
  destruct (name =? "copyModel") eqn:E3; cbn [orb] in *.
  { apply String.eqb_eq in E3. subst name. cbn in D |- *.
    destruct D as (fnames & Hc & H0 & H1). exists fnames.
    rewrite Hsrc, Htgt. auto. }
  destruct (name =? "deleteModel") eqn:E4; cbn [orb] in *.
  { apply String.eqb_eq in E4. subst name. cbn. rewrite Hsrc. apply D. }
  destruct (name =? "unloadModel") eqn:E5; cbn [orb] in *.
  { apply String.eqb_eq in E5. subst name. cbn. rewrite Hsrc. apply D. }
  destruct D as [<- <-]. auto.
Qed.

Lemma last_managed_named args name v :
  last_managed args = Some (name, v) ->
  managed name = true /\ named name args = true.
Proof.
  induction args as [| a | a0 a1 rest IH] using pairs_ind; try discriminate.
  cbn [last_managed named]. destruct (last_managed rest) as [p|].
  - intros H. inversion H; subst p. destruct (IH eq_refl) as [Hm Hn].
    rewrite Hn, orb_true_r. auto.
  - destruct a0 as [|x| | | | |]; try discriminate.
    destruct (managed x) eqn:Hm; [|discriminate].
    intros H. inversion H; subst. cbn [is_name]. rewrite String.eqb_refl. auto.
Qed.

(** X5. The model management request is made for the model named by the
    last management pair of the argument list (for ['copyModel'], from its
    first to its second element), when the server answers and no status or
    version query is asked: an earlier pair of the same parameter is
    overwritten. *)
Theorem management_request_names_the_last_model args h0 entry s h name v c :
  parsed conv lib args h0 entry s h ->
  last_managed args = Some (name, v) ->
  management_call name v = Some c ->
  entry || named "serverURL" args = true ->
  queried "status" args = false -> queried "version" args = false ->
  exists r, __ollama__ conv lib args 2 h0 = (r, h ++ [c]).
Proof.
  intros Hp Hlast Hcall Hrun Hqs Hqv.
  rewrite (ollama_parsed _ _ _ _ _ _ _ Hp).
  pose proof (flags_of_parsed _ _ _ _ _ Hp) as Hf.
  pose proof (parsed_facts _ _ _ _ _ _ _ Hp) as (_ & _ & [Hone _] & _).
  destruct Hp as (_ & _ & Hloop). apply parse_args_managed in Hloop.
  rewrite Hlast in Hloop.
  destruct (last_managed_named _ _ _ Hlast) as [Hm Hn].
  unfold summary in Hf. cbn in Hf.
  destruct Hf as (Hr & Hs & Hv & Hl & Hpu & Hc & Hd & Hu & _).
  rewrite Hrun in Hr. rewrite Hqs in Hs. rewrite Hqv in Hv.
  unfold managed, lifecycle_parameters in Hm. cbn [existsb] in Hm.
  rewrite orb_false_r in Hm. unfold names_the_model in Hloop.
  unfold communicate. rewrite Hr, Hs, Hv. cbn [negb].
  destruct (String.eqb_spec name "loadModel") as [->|N1].
  { rewrite Hn in Hl. rewrite Hl. cbn in Hloop. subst v. cbn in Hcall.
    inversion Hcall; subst c. unfold bind, invoke.
    destruct (lib h (load_model _)); eexists; reflexivity. }
  destruct (String.eqb_spec name "pullModel") as [->|N2].
  { rewrite Hn in Hpu. rewrite Hpu in Hone |- *.
    destruct (do_loadModel s); [cbn in Hone; lia|].
    cbn in Hloop. subst v. cbn in Hcall.
    inversion Hcall; subst c. unfold try_catch, bind, invoke.
    destruct (lib h (pull_model _)); eexists; reflexivity. }
  destruct (String.eqb_spec name "copyModel") as [->|N3].
  { rewrite Hn in Hc. rewrite Hc in Hone |- *.
    destruct (do_loadModel s); [cbn in Hone; lia|].
    destruct (do_pullModel s); [cbn in Hone; lia|].
    cbn in Hloop. destruct Hloop as (fnames & Hcv & H0 & H1).
    destruct v as [| | | | |rw cl l|]; try discriminate.
    inversion Hcv; subst fnames. unfold cell_at in H0, H1. cbn in H0, H1.
    destruct l as [|e0 [|e1 l]]; try discriminate;
      try (destruct e0; discriminate).
    cbn in H0, H1. subst e0 e1. cbn in Hcall.
    inversion Hcall; subst c. unfold try_catch, bind, invoke.
    destruct (lib h (copy_model _ _)); eexists; reflexivity. }
  destruct (String.eqb_spec name "deleteModel") as [->|N4].
  { rewrite Hn in Hd. rewrite Hd in Hone |- *.
    destruct (do_loadModel s); [cbn in Hone; lia|].
    destruct (do_pullModel s); [cbn in Hone; lia|].
    destruct (do_copyModel s); [cbn in Hone; lia|].
    cbn in Hloop. subst v. cbn in Hcall.
    inversion Hcall; subst c. unfold try_catch, bind, invoke.
    destruct (lib h (delete_model _)); eexists; reflexivity. }
  destruct (String.eqb_spec name "unloadModel") as [->|N5]; [|discriminate].
  rewrite Hn in Hu. rewrite Hu in Hone |- *.
  destruct (do_loadModel s); [cbn in Hone; lia|].
  destruct (do_pullModel s); [cbn in Hone; lia|].
  destruct (do_copyModel s); [cbn in Hone; lia|].
  destruct (do_deleteModel s); [cbn in Hone; lia|].
  cbn in Hloop. subst v. cbn in Hcall.
  inversion Hcall; subst c. unfold bind, invoke.
  destruct (lib h (unload_model _)); eexists; reflexivity.
Qed.

(** X6. What a version query and a pull, copy or delete return when the
    library call returns: the version text, or the library's boolean
    answer, with the error flag false. A pull, copy or delete that the
    library answers with false is returned as false with the error flag
    still false. *)
Theorem results_of_handled_management args h0 entry s h :
  parsed conv lib args h0 entry s h ->
  (forall version,
     chosen entry args = Version ->
     lib h get_version = Returns version ->
     __ollama__ conv lib args 2 h0
     = (Value (ov_string version, ov_bool false), h ++ [get_version])) /\
  (forall b : bool,
     chosen entry args = Pull ->
     lib h (pull_model (source s)) = Returns b ->
     __ollama__ conv lib args 2 h0
     = (Value (ov_bool b, ov_bool false), h ++ [pull_model (source s)])) /\
  (forall b : bool,
     chosen entry args = Copy ->
     lib h (copy_model (source s) (target s)) = Returns b ->
     __ollama__ conv lib args 2 h0
     = (Value (ov_bool b, ov_bool false),
        h ++ [copy_model (source s) (target s)])) /\
  (forall b : bool,
     chosen entry args = Delete ->
     lib h (delete_model (source s)) = Returns b ->
     __ollama__ conv lib args 2 h0
     = (Value (ov_bool b, ov_bool false), h ++ [delete_model (source s)])).
Proof.
  intros Hp. rewrite (ollama_parsed _ _ _ _ _ _ _ Hp).
  rewrite <- (parsed_task _ _ _ _ _ _ _ Hp).
  repeat split; intros x Hc Hl; pick Hc; by_flags;
    unfold try_catch, bind, invoke; rewrite Hl; reflexivity.
Qed.

Lemma parse_args_cellstr args s h s' h' :
  parse_args conv lib args s h = (Value (Continue s'), h') ->
  return_cellstr s' = return_cellstr s || wants_cellstr args.
Proof.
  revert args s h s' h'.
  apply (parse_args_induct
           (fun args s s' =>
              return_cellstr s' = return_cellstr s || wants_cellstr args));
    [intros; cbn; rewrite orb_false_r; reflexivity
    |intros; cbn; rewrite orb_false_r; reflexivity|].
  intros name a1 rest s s1 s' _ _ D IH.
  destruct D as (_ & _ & _ & _ & _ & D & _).
  cbn [wants_cellstr is_name]. rewrite IH, D, orb_assoc. reflexivity.
Qed.

(** X7. A model listing returns a one-column cell array with the names in
    the library's order as soon as some listing pair of the argument list
    says 'cellstr', also when a later pair says 'json'; otherwise it
    returns the JSON text. The error flag is false. *)
Theorem listing_format args h0 entry s h :
  parsed conv lib args h0 entry s h ->
  (forall models,
     chosen entry args = ListModels -> wants_cellstr args = true ->
     lib h list_models = Returns models ->
     __ollama__ conv lib args 2 h0
     = (Value (ov_cell (List.length models) 1 (map ov_string models),
               ov_bool false),
        h ++ [list_models])) /\
  (forall text,
     chosen entry args = ListModels -> wants_cellstr args = false ->
     lib h list_model_json = Returns text ->
     __ollama__ conv lib args 2 h0
     = (Value (ov_string (dump text), ov_bool false), h ++ [list_model_json])) /\
  (forall models,
     chosen entry args = ListRunningModels -> wants_cellstr args = true ->
     lib h list_running_models = Returns models ->
     __ollama__ conv lib args 2 h0
     = (Value (ov_cell (List.length models) 1 (map ov_string models),
               ov_bool false),
        h ++ [list_running_models])) /\
  (forall text,
     chosen entry args = ListRunningModels -> wants_cellstr args = false ->
     lib h running_model_json = Returns text ->
     __ollama__ conv lib args 2 h0
     = (Value (ov_string (dump text), ov_bool false),
        h ++ [running_model_json])).
Proof.
  intros Hp. rewrite (ollama_parsed _ _ _ _ _ _ _ Hp).
  rewrite <- (parsed_task _ _ _ _ _ _ _ Hp).
  destruct Hp as (_ & _ & Hloop). apply parse_args_cellstr in Hloop.
  cbn [initial return_cellstr orb] in Hloop.
  repeat split; intros x Hc Hw Hl; pick Hc; by_flags;
    rewrite ?Hloop, ?Hw; unfold try_catch, bind, invoke; rewrite Hl; reflexivity.
Qed.


(** X8. A request of an operation is only ever made after every pair of
    the argument list was accepted: a call whose history holds anything
    but server probes, address and timeout settings and image loads was
    made with two outputs and an even number of arguments, none of them
    malformed, and its parsing loop ran to its end. *)
Theorem operations_only_after_parsing args nargout h0 r t :
  __ollama__ conv lib args nargout h0 = (r, h0 ++ t) ->
  forallb parsing_call t = false ->
  nargout = 2%Z /\
  Nat.even (List.length args) = true /\
  malformed args = false /\
  exists entry s h, parsed conv lib args h0 entry s h.
Proof.
  intros H Ht. apply ollama_cases in H.
  destruct H as [(_ & t' & Heq & Ht') | (Hn & entry & s & h & Hp & _)].
  - apply app_inv_head in Heq. subst t'. congruence.
  - pose proof (parsed_facts _ _ _ _ _ _ _ Hp) as (Hm & _).
    pose proof Hp as (_ & Hev & _). eauto 8.
Qed.

(** ** The options *)

Lemma convert_conversion k v h :
  convert conv k v h = host (conversion conv k v) h.
Proof.
  destruct k; cbn [convert conversion]; unfold bind, host.
  - destruct (int_value conv v); reflexivity.
  - destruct (double_value conv v); reflexivity.
  - destruct (bool_value conv v); reflexivity.
Qed.

Lemma forward_fields opt fields :
  NoDup (map fst fields) ->
  forall o h o' h',
    for_each fields (forward_field conv opt) o h = (Value o', h') ->
    h' = h /\
    forall key,
      options_get key o' = field_value conv fields key opt (options_get key o).
Proof.
  induction fields as [|[k kind] fields IH]; intros Hnd o h o' h' H.
  - inversion H. split; [reflexivity|]. intros key. reflexivity.
  - inversion Hnd as [|? ? Hk Hnd']; subst. cbn [for_each] in H.
    apply bind_inv in H.
    destruct H as [(o1 & h1 & E & H) | [(msg & _ & ?) | (what & _ & ?)]];
      try discriminate.
    apply (IH Hnd') in H. destruct H as [-> Hget].
    unfold forward_field in E. cbn [fst snd] in E. unfold isfield in E.
    assert (h1 = h /\
            forall key,
              options_get key o1
              = if k =? key then
                  match contents k opt with
                  | Some v =>
                      match conversion conv kind v with
                      | host_ok x => Some x
                      | host_error _ => options_get key o
                      end
                  | None => options_get key o
                  end
                else options_get key o) as [-> Hstep].
    { destruct (contents k opt) as [v|].
      - apply bind_inv in E.
        destruct E as [(x & h2 & E & H) | [(msg & _ & ?) | (what & _ & ?)]];
          try discriminate.
        rewrite convert_conversion in E. apply host_inv in E.
        destruct E as [-> [(x' & Hc & Hx) | (? & _ & ?)]]; [|discriminate].
        inversion Hx; subst x'. inversion H; subst.
        split; [reflexivity|]. intros key. rewrite Hc.
        destruct (String.eqb_spec k key) as [->|Hne].
        + apply options_get_set_same.
        + apply options_get_set_other. congruence.
      - inversion E; subst. split; [reflexivity|]. intros key.
        destruct (k =? key); reflexivity. }
    split; [reflexivity|]. intros key. rewrite Hget.
    unfold field_value. cbn [kind_in]. rewrite Hstep.
    destruct (String.eqb_spec k key) as [->|Hne]; [|reflexivity].
    rewrite (kind_in_absent fields key Hk). reflexivity.
Qed.

Lemma option_fields_distinct : NoDup (map fst option_fields).
Proof.
  cbn. repeat (constructor; [cbn; intuition discriminate|]). constructor.
Qed.

Lemma parameter_options a1 s h s' h' :
  parameter conv lib "options" a1 s h = (Value (Continue s'), h') ->
  h' = h /\
  exists opt,
    scalar_map_value a1 = host_ok opt /\
    forall key,
      options_get key (options s')
      = field_value conv option_fields key opt (options_get key (options s)).
Proof.
  unfold parameter. cbn [String.eqb Ascii.eqb Bool.eqb]. unfold param_options.
  intros H. destruct (negb (isstruct a1)); [discriminate|].
  apply bind_inv in H.
  destruct H as [(opt & h1 & E & H) | [(msg & _ & ?) | (what & _ & ?)]];
    try discriminate.
  apply host_inv in E. destruct E as [-> [(x & Hs & Hx) | (? & _ & ?)]];
    [|discriminate].
  inversion Hx; subst x.
  apply bind_inv in H.
  destruct H as [(o & h2 & E & H) | [(msg & _ & ?) | (what & _ & ?)]];
    try discriminate.
  apply (forward_fields opt option_fields option_fields_distinct) in E.
  destruct E as [-> Hget]. inversion H; subst.
  split; [reflexivity|]. exists opt. split; [exact Hs|]. exact Hget.
Qed.

Lemma parse_args_options args s h s' h' :
  parse_args conv lib args s h = (Value (Continue s'), h') ->
  forall key,
    options_get key (options s')
    = forwarded conv key args (options_get key (options s)).
Proof.
  revert args s h s' h'.
  apply (parse_args_run
           (fun args s _ s' _ =>
              forall key,
                options_get key (options s')
                = forwarded conv key args (options_get key (options s))));
    [reflexivity | reflexivity |].
  intros name a1 rest s h s1 h1 s' h' _ E IH key.
  cbn [forwarded is_name]. rewrite IH. f_equal.
  destruct (String.eqb_spec name "options") as [->|Hne].
  - apply parameter_options in E. destruct E as (_ & opt & -> & Hget).
    apply Hget.
  - apply parameter_details in E.
    destruct E as (_ & _ & _ & _ & _ & _ & _ & _ & E & _).
    rewrite E; [reflexivity|]. apply String.eqb_neq. exact Hne.
Qed.

Lemma forwarded_unknown key args :
  kind_in option_fields key = None ->
  forall old, forwarded conv key args old = old.
Proof.
  intros Hk.
  induction args as [| a | a0 a1 rest IH] using pairs_ind; intros old;
    try reflexivity.
  cbn [forwarded]. rewrite IH.
  destruct (is_name "options" a0); [|reflexivity].
  destruct (scalar_map_value a1); [|reflexivity].
  unfold field_value. rewrite Hk. reflexivity.
Qed.

(** X9. The options a request carries are those of the ['options']
    structures of the argument list, read in order: for each of the twenty
    fields the binding forwards, the converted value of the last structure
    that has the field, and nothing for a field no structure has. A field
    of another name is never forwarded. *)
Theorem options_are_forwarded_by_field args h0 entry s h :
  parsed conv lib args h0 entry s h ->
  forall key,
    options_get key (options s) = forwarded conv key args None /\
    (kind_in option_fields key = None -> options_get key (options s) = None).
Proof.
  intros (_ & _ & Hloop) key. apply parse_args_options with (key := key) in Hloop.
  cbn [initial options options_get] in Hloop. split; [exact Hloop|].
  intros Hk. rewrite Hloop. apply forwarded_unknown. exact Hk.
Qed.

(** ** The chat history *)

Lemma message_row_of_turn (turns : list (string * string)) i ms h :
  i < List.length turns ->
  message_row lib
    (mkCell (List.length turns) 3
       (map (fun t => ov_string (fst t)) turns
        ++ repeat (ov_cell 0 2 []) (List.length turns)
        ++ map (fun t => ov_string (snd t)) turns)) i ms h
  = (Value (ms ++ turn_messages (nth i turns ("", ""))), h).
Proof.
  intros Hi. destruct (history_cell_at turns i Hi) as (H0 & H1 & H2).
  unfold message_row. rewrite H0, H1, H2.
  cbn [string_value host iscell columns negb orb Nat.eqb cell_value is_string].
  unfold bind, ret. cbn [cell_rows seq for_each]. unfold ret.
  cbn [snd fst]. unfold turn_messages.
  destruct (0 <? String.length (snd (nth i turns ("", ""))))%nat.
  - rewrite <- app_assoc. reflexivity.
  - reflexivity.
Qed.

Lemma message_rows_of_turns (turns : list (string * string)) idxs :
  (forall i, In i idxs -> i < List.length turns) ->
  forall ms h,
    for_each idxs
      (message_row lib
         (mkCell (List.length turns) 3
            (map (fun t => ov_string (fst t)) turns
             ++ repeat (ov_cell 0 2 []) (List.length turns)
             ++ map (fun t => ov_string (snd t)) turns))) ms h
    = (Value (ms ++ flat_map (fun i => turn_messages (nth i turns ("", ""))) idxs),
       h).
Proof.
  induction idxs as [|i idxs IH]; intros Hin ms h; cbn [for_each flat_map].
  - rewrite app_nil_r. reflexivity.
  - unfold bind. rewrite message_row_of_turn by (apply Hin; left; reflexivity).
    rewrite IH by (intros j Hj; apply Hin; right; exact Hj).
    rewrite <- app_assoc. reflexivity.
Qed.

Lemma parameter_history (turns : list (string * string)) s h :
  has_prompt s = false ->
  parameter conv lib "message" (history_cell turns) s h
  = (Value (Continue (set_messages (messages s ++ flat_map turn_messages turns)
                        (set_has_messages true s))), h).
Proof.
  intros Hp. unfold parameter. cbn [String.eqb Ascii.eqb Bool.eqb].
  unfold param_message, history_cell. rewrite Hp.
  cbn [iscell negb cell_value host]. unfold bind at 1. unfold ret at 1.
  cbn [cell_columns Nat.eqb negb cell_rows]. unfold bind.
  rewrite message_rows_of_turns
    by (intros i Hi; apply in_seq in Hi; lia).
  rewrite flat_map_nth_seq. reflexivity.
Qed.

Lemma parsed_extend pre h0 entry s1 h1 name v s2 h2 :
  parsed conv lib pre h0 entry s1 h1 ->
  name <> "" -> isempty v = false ->
  parameter conv lib name v s1 h1 = (Value (Continue s2), h2) ->
  parsed conv lib (pre ++ [ov_string name; v]) h0 entry s2 h2.
Proof.
  intros (Hr & Hev & Hloop) Hne Hv E. split; [exact Hr|]. split.
  - rewrite even_app by exact Hev. reflexivity.
  - rewrite parse_args_app, Hloop by exact Hev. cbn [parse_args].
    unfold bind.
    assert (malformed_pair (ov_string name) v = false) as Hm.
    { unfold malformed_pair. rewrite Hv, isempty_string.
      destruct name; [contradiction|reflexivity]. }
    destruct (parse_pair_wellformed conv lib (ov_string name) v s1 Hm)
      as (name' & Hn & _ & ->).
    inversion Hn; subst name'. rewrite E. reflexivity.
Qed.

Lemma history_cell_not_empty (turns : list (string * string)) :
  turns <> [] -> isempty (history_cell turns) = false.
Proof. destruct turns; [contradiction|reflexivity]. Qed.

(** X10. A chat history without images, given as the three-column cell
    array of its turns, is accepted without a library call and appended
    to the messages as one "user" message per turn, followed by an
    "assistant" message when the turn has a previous response, in the
    order of the rows; these are the messages of the chat request. *)
Theorem chat_history_becomes_messages pre h0 entry s1 h1
    (turns : list (string * string)) :
  parsed conv lib pre h0 entry s1 h1 ->
  named "prompt" pre = false ->
  turns <> [] ->
  parsed conv lib (pre ++ [ov_string "message"; history_cell turns]) h0 entry
    (set_messages (messages s1 ++ flat_map turn_messages turns)
       (set_has_messages true s1)) h1 /\
  (chosen entry pre = Inference -> named "model" pre = true ->
   exists r,
     __ollama__ conv lib (pre ++ [ov_string "message"; history_cell turns]) 2 h0
     = (r, h1 ++ [chat (model s1)
                       (messages s1 ++ flat_map turn_messages turns)
                       (think s1) (sysmsg s1) (options s1)])).
Proof.
  intros Hp Hnp Hne.
  pose proof (flags_of_parsed _ _ _ _ _ Hp) as Hf.
  unfold summary in Hf. cbn in Hf.
  destruct Hf as (_ & _ & _ & _ & _ & _ & _ & _ & _ & _ & _
                  & Hhp & _ & Hlen & _).
  rewrite Hnp in Hhp.
  assert (parsed conv lib (pre ++ [ov_string "message"; history_cell turns])
            h0 entry
            (set_messages (messages s1 ++ flat_map turn_messages turns)
               (set_has_messages true s1)) h1) as Hp'.
  { apply (parsed_extend pre h0 entry s1 h1); auto.
    - discriminate.
    - apply history_cell_not_empty. exact Hne.
    - apply parameter_history. exact Hhp. }
  split; [exact Hp'|]. intros Hc Hmd.
  rewrite (ollama_parsed _ _ _ _ _ _ _ Hp').
  rewrite <- (parsed_task _ _ _ _ _ _ _ Hp) in Hc.
  rewrite communicate_inference by exact Hc.
  unfold inference. cbn [model has_prompt has_messages set_messages
                         set_has_messages messages think sysmsg options].
  rewrite Hlen, Hmd, Hhp. cbn [negb andb].
  unfold try_catch, bind, invoke.
  destruct (lib h1 (chat _ _ _ _ _)); eexists; reflexivity.
Qed.

(** ** The images *)

Lemma load_each (base64 : bool) (files : Cell) (xs : list string) idxs :
  (forall i, In i idxs -> cell_at files i = ov_string (nth i xs "")) ->
  forall acc h imgs,
    loaded lib base64 h (map (fun i => nth i xs "") idxs) = Some imgs ->
    for_each idxs
      (fun f acc =>
         name <- host (string_value (cell_at files f)) ;;
         img <- image_loader lib base64 name ;;
         ret (acc ++ [img])) acc h
    = (Value (acc ++ imgs),
       h ++ map (image_call base64) (map (fun i => nth i xs "") idxs)).
Proof.
  induction idxs as [|i idxs IH]; intros Hat acc h imgs Hl.
  - inversion Hl. cbn. rewrite !app_nil_r. reflexivity.
  - cbn [map loaded] in Hl. cbn [for_each map].
    unfold bind at 1. unfold bind at 1.
    rewrite (Hat i) by (left; reflexivity). cbn [string_value host ret].
    unfold image_loader, image_call, bind in *.
    destruct base64; unfold invoke at 1.
    + destruct (lib h (image_from_base64_string (nth i xs ""))) as [img|];
        [|discriminate].
      destruct (loaded lib true _ _) as [l|] eqn:El; [|discriminate].
      inversion Hl; subst imgs. unfold ret at 1.
      rewrite (IH (fun j Hj => Hat j (or_intror Hj)) _ _ l El).
      rewrite <- !app_assoc. reflexivity.
    + destruct (lib h (image_from_file (nth i xs ""))) as [img|];
        [|discriminate].
      destruct (loaded lib false _ _) as [l|] eqn:El; [|discriminate].
      inversion Hl; subst imgs. unfold ret at 1.
      rewrite (IH (fun j Hj => Hat j (or_intror Hj)) _ _ l El).
      rewrite <- !app_assoc. reflexivity.
Qed.

Lemma all_strings (xs : list string) : forallb is_string (map ov_string xs) = true.
Proof. induction xs as [|x xs IH]; [reflexivity|exact IH]. Qed.

Lemma parameter_image_cell base64 r c (xs : list string) s h imgs :
  has_images s = false ->
  r * c = List.length xs ->
  loaded lib base64 h xs = Some imgs ->
  parameter conv lib (image_parameter base64) (ov_cell r c (map ov_string xs)) s h
  = (Value (Continue (set_has_images true (set_images (images s ++ imgs) s))),
     h ++ map (image_call base64) xs).
Proof.
  intros Hno Hrc Hl.
  assert (for_each (seq 0 (List.length xs))
            (fun f acc =>
               name <- host (string_value
                               (cell_at (mkCell r c (map ov_string xs)) f)) ;;
               img <- image_loader lib base64 name ;;
               ret (acc ++ [img])) (images s) h
          = (Value (images s ++ imgs), h ++ map (image_call base64) xs)) as Hloop.
  { replace (map (image_call base64) xs)
      with (map (image_call base64)
              (map (fun i => nth i xs "") (seq 0 (List.length xs))))
      by (rewrite map_nth_seq_id; reflexivity).
    apply load_each.
    - intros i Hi. apply in_seq in Hi. unfold cell_at. cbn [cell_data].
      rewrite (nth_indep _ ov_undef (ov_string "")) by (rewrite length_map; lia).
      apply (map_nth ov_string).
    - rewrite map_nth_seq_id. exact Hl. }
  destruct base64; unfold parameter, image_parameter;
    cbn [String.eqb Ascii.eqb Bool.eqb];
    unfold param_imageFile, param_imageBase64, load_images;
    cbn [is_string iscellstr]; rewrite all_strings;
    unfold bind at 1; unfold bind at 1; cbn [cell_value host]; unfold ret at 1;
    unfold cell_numel; cbn [cell_rows cell_columns];
    rewrite Hrc; unfold image_loader in Hloop; rewrite Hloop, Hno; reflexivity.
Qed.

Lemma parameter_image_text base64 x s h img :
  has_images s = false ->
  loaded lib base64 h [x] = Some [img] ->
  parameter conv lib (image_parameter base64) (ov_string x) s h
  = (Value (Continue (set_has_images true (set_images [img] s))),
     h ++ [image_call base64 x]).
Proof.
  intros Hno Hl. cbn [loaded] in Hl.
  destruct base64; unfold parameter, image_parameter;
    cbn [String.eqb Ascii.eqb Bool.eqb];
    unfold param_imageFile, param_imageBase64, load_images;
    cbn [is_string string_value host]; unfold bind, ret, invoke.
  - destruct (lib h (image_from_base64_string x)); [|discriminate].
    inversion Hl; subst. rewrite Hno. reflexivity.
  - destruct (lib h (image_from_file x)); [|discriminate].
    inversion Hl; subst. rewrite Hno. reflexivity.
Qed.

Lemma parse_args_no_images args s h s' h' :
  parse_args conv lib args s h = (Value (Continue s'), h') ->
  image_pairs args = 0 -> images s' = images s.
Proof.
  revert args s h s' h'.
  apply (parse_args_induct
           (fun args s s' => image_pairs args = 0 -> images s' = images s));
    auto.
  intros name a1 rest s s1 s' _ _ D IH.
  destruct D as (_ & _ & _ & _ & _ & _ & _ & D & _).
  cbn [image_pairs]. unfold image_name. cbn [is_name].
  destruct ((name =? "imageFile") || (name =? "imageBase64")).
  - cbn [Nat.b2n]. discriminate.
  - cbn [Nat.b2n Nat.add]. intros H0. rewrite (IH H0). apply D.
Qed.

(** X11. The images of a request are loaded while the argument list is
    parsed, with one library call for every file name or Base64 text of
    the image pair, in their order, and the request carries the images in
    that order. *)
Theorem images_are_loaded_in_order pre h0 entry s1 h1 base64 :
  parsed conv lib pre h0 entry s1 h1 ->
  image_pairs pre = 0 ->
  (forall r c xs imgs,
     xs <> [] -> r * c = List.length xs ->
     loaded lib base64 h1 xs = Some imgs ->
     parsed conv lib
       (pre ++ [ov_string (image_parameter base64);
                ov_cell r c (map ov_string xs)])
       h0 entry (set_has_images true (set_images imgs s1))
       (h1 ++ map (image_call base64) xs)) /\
  (forall x img,
     x <> "" ->
     loaded lib base64 h1 [x] = Some [img] ->
     parsed conv lib
       (pre ++ [ov_string (image_parameter base64); ov_string x])
       h0 entry (set_has_images true (set_images [img] s1))
       (h1 ++ [image_call base64 x])).
Proof.
  intros Hp Hnone.
  assert (has_images s1 = false /\ images s1 = []) as [Hno Himgs].
  { pose proof Hp as (_ & _ & Hloop).
    pose proof (parse_args_image_pairs _ _ _ _ _ Hloop) as Hn.
    apply parse_args_no_images in Hloop; [|exact Hnone].
    rewrite Hnone in Hn. cbn in Hn. split; [|exact Hloop].
    destruct (has_images s1); [discriminate|reflexivity]. }
  assert (image_parameter base64 <> "") as Hname
    by (destruct base64; discriminate).
  split.
  - intros r c xs imgs Hne Hrc Hl.
    apply (parsed_extend pre h0 entry s1 h1); auto.
    + unfold isempty, numel. cbn [rows columns]. rewrite Hrc.
      destruct xs; [contradiction|reflexivity].
    + rewrite (parameter_image_cell base64 r c xs s1 h1 imgs Hno Hrc Hl).
      rewrite Himgs. reflexivity.
  - intros x img Hne Hl.
    apply (parsed_extend pre h0 entry s1 h1); auto.
    + rewrite isempty_string. destruct x; [contradiction|reflexivity].
    + apply parameter_image_text; assumption.
Qed.

(** ** The server's address *)

Ltac quiet_calls :=
  repeat first
    [ apply only_ret | apply only_error | apply only_host
    | match goal with
      | |- only ?P (invoke ?l ?c) => exact (only_invoke l P c eq_refl)
      end
    | apply only_bind; [|intros]
    | apply only_for_each; intros
    | apply only_if
    | match goal with
      | |- only _ (match ?x with _ => _ end) => destruct x
      end
    | progress cbv zeta
    | progress unfold next, message_row, message_image, forward_field, convert ].

Lemma parameter_quiet name a1 s :
  (name =? "serverURL") = false -> only quiet (parameter conv lib name a1 s).
Proof.
  pattern name, (parameter conv lib name a1 s).
  apply (parameter_cases conv lib); clear name; intros; try discriminate.
  all: unfold param_model, param_prompt, param_readTimeout,
    param_writeTimeout, param_Query, param_loadModel, param_pullModel,
    param_copyModel, param_deleteModel, param_unloadModel, param_modelInfo,
    param_listModels, param_listRunningModels, param_imageFile,
    param_imageBase64, load_images, param_options, param_message,
    param_systemMessage, param_think.
  all: quiet_calls.
Qed.

Lemma parameter_probes name a1 s h s' h' :
  parameter conv lib name a1 s h = (Value (Continue s'), h') ->
  exists t,
    h' = h ++ t /\
    filter probing t
    = if name =? "serverURL"
      then match a1 with
           | ov_string url => [setServerURL url; is_running]
           | _ => []
           end
      else [].
Proof.
  intros H. destruct (String.eqb_spec name "serverURL") as [->|Hne].
  - unfold parameter in H. cbn [String.eqb Ascii.eqb Bool.eqb] in H.
    unfold param_serverURL in H. run; try discriminate. strings.
    exists [setServerURL x0; is_running]. rewrite <- app_assoc.
    split; reflexivity.
  - apply String.eqb_neq in Hne.
    apply (parameter_quiet name a1 s Hne) in H.
    destruct H as (t & -> & Ht). exists t. split; [reflexivity|].
    apply quiet_filter. exact Ht.
Qed.

(** X12. The server's address is set by the ['serverURL'] pairs only, in
    the order of the argument list, and the server is probed once when
    the call is entered and once after each address: nothing else in the
    parsing loop sets the address or probes the server. *)
Theorem addresses_are_set_in_order args h0 entry s h :
  parsed conv lib args h0 entry s h ->
  exists t,
    h = h0 ++ is_running :: t /\
    filter probing t
    = flat_map (fun url => [setServerURL url; is_running]) (addresses args).
Proof.
  intros (_ & _ & Hloop).
  assert (exists t,
             h = (h0 ++ [is_running]) ++ t /\
             filter probing t
             = flat_map (fun url => [setServerURL url; is_running])
                 (addresses args)) as (t & -> & Ht).
  { revert Hloop. generalize (h0 ++ [is_running]) as h1.
    generalize (initial entry) as s0. intros s0 h1. revert args s0 h1 s h.
    apply (parse_args_run
             (fun args _ h1 _ h =>
                exists t,
                  h = h1 ++ t /\
                  filter probing t
                  = flat_map (fun url => [setServerURL url; is_running])
                      (addresses args))).
    - intros s0 h1. exists []. rewrite app_nil_r. auto.
    - intros a s0 h1. exists []. rewrite app_nil_r. auto.
    - intros name a1 rest s0 h1 s1 h2 s' h' _ E (t2 & -> & Ht2).
      apply parameter_probes in E. destruct E as (t1 & -> & Ht1).
      exists (t1 ++ t2). rewrite app_assoc. split; [reflexivity|].
      rewrite filter_app, Ht1, Ht2. cbn [addresses is_name].
      rewrite flat_map_app. f_equal.
      destruct (name =? "serverURL"); [|reflexivity].
      destruct a1; reflexivity. }
  exists t. rewrite <- app_assoc. auto.
Qed.

End MoreOllamaFacts.

(** ** [fig2base64] *)

Section MoreFigureFacts.

Variable conv : conversions.
Variable tk : toolkit.

(** X13. [fig2base64] returns only when it is called with exactly one
    argument that converts to the handle of a figure whose snapshot fpng
    can encode; what it returns is then the Base64 text of that PNG in
    the first output. In every other case it raises the host's error. *)
Theorem fig2base64_returns_for_figures_only args nargout out :
  fig2base64 conv tk args nargout = host_ok out ->
  exists hfig h go data png,
    args = [hfig] /\
    double_value conv hfig = host_ok h /\
    get_object tk h = Some go /\
    isa tk go "figure" = true /\
    uint8_array_value tk (get_pixels tk go) = host_ok data /\
    fpng_encode_image_to_memory tk
      (map_image data (dim1 data) (dim2 data))
      (to_uint32 (dim2 data)) (to_uint32 (dim1 data)) 3 = Some png /\
    out = ov_string (Base64_Encode tk (string_of_list_byte png))
          :: repeat ov_undef (pred nargout).
Proof.
  unfold fig2base64, xdouble_value. intros H.
  destruct args as [|hfig [|? ?]]; try discriminate.
  destruct (double_value conv hfig) as [h|] eqn:Hh; [|discriminate].
  destruct (get_object tk h) as [go|] eqn:Hgo; [|discriminate].
  destruct (isa tk go "figure") eqn:Hfig; [|discriminate]. cbn [negb] in H.
  destruct (uint8_array_value tk (get_pixels tk go)) as [data|] eqn:Hd;
    [|discriminate].
  destruct (fpng_encode_image_to_memory tk _ _ _ _) as [png|] eqn:Hpng;
    [|discriminate].
  inversion H. exists hfig, h, go, data, png. repeat split; auto.
Qed.

(** X14. Only the first three channels of the snapshot reach the PNG:
    two snapshots of the same size that agree on the channels 0 to 2 of
    every pixel give the same image bytes, whatever a fourth channel
    holds. *)
Theorem further_channels_are_ignored d1 d2 rows cols :
  (forall r c k, r < rows -> c < cols -> k < 3 ->
     elem d1 r c k = elem d2 r c k) ->
  map_image d1 rows cols = map_image d2 rows cols.
Proof.
  intros H. rewrite !map_image_flat.
  rewrite !flat_map_concat_map. f_equal. apply map_ext_in.
  intros r Hr. apply in_seq in Hr.
  rewrite !flat_map_concat_map. f_equal. apply map_ext_in.
  intros c Hc. apply in_seq in Hc. unfold pixel_bytes.
  rewrite !H by lia. reflexivity.
Qed.

End MoreFigureFacts.

(* ================================================================== *)
(** * The properties on concrete calls *)
(* ================================================================== *)

Ltac loop_ran := repeat split; vm_compute; reflexivity.

(** ** C1 *)

Lemma load_exception_propagates :
  __ollama__ plain refusing [ov_string "loadModel"; ov_string "llama3"] 2 []
  = (Exception "refused", [is_running; load_model "llama3"]).
Proof.
  set (args := [ov_string "loadModel"; ov_string "llama3"]).
  set (run := parse_args plain refusing args (initial true) [is_running]).
  assert (parsed plain refusing args [] true (variables_after run) (snd run))
    as Hp by loop_ran.
  exact (proj1 (uncaught_exceptions_propagate plain refusing args [] true
                  _ _ "refused" Hp)
           eq_refl eq_refl).
Defined.

(** ** C2 *)

Lemma load_and_pull_is_an_error :
  stopped server_up (Error either_one) [is_running] /\
  exists t,
    [is_running] = [] ++ t /\ forallb parsing_call t = true /\
    existsb lifecycle_call t = false.
Proof.
  exact (one_management_parameter plain server_up
           [ov_string "loadModel"; ov_string "llama3";
            ov_string "pullModel"; ov_string "mistral"]
           2 [] "loadModel" "pullModel" (Error either_one) [is_running]
           (or_introl eq_refl) (or_intror (or_introl eq_refl))
           ltac:(discriminate) eq_refl eq_refl eq_refl).
Defined.

Lemma load_and_pull_after_unreachable_url :
  __ollama__ plain unreachable_at_url
    [ov_string "serverURL"; ov_string "http://10.0.0.7:11434";
     ov_string "loadModel"; ov_string "llama3";
     ov_string "pullModel"; ov_string "mistral"] 2 []
  = (Value (ov_bool false, ov_bool true),
     [is_running; setServerURL "http://10.0.0.7:11434"; is_running]).
Proof. vm_compute. reflexivity. Qed.

(** ** C3 *)



(** ** C4 *)

Lemma prompt_calls_generate :
  __ollama__ plain server_up
    [ov_string "model"; ov_string "llama3"; ov_string "prompt"; ov_string "hi"]
    2 []
  = (Value (ov_string "{}", ov_bool false),
     [is_running; generate "llama3" "hi" "false" "" [] []]).
Proof.
  set (args := [ov_string "model"; ov_string "llama3";
                ov_string "prompt"; ov_string "hi"]).
  set (run := parse_args plain server_up args (initial true) [is_running]).
  assert (parsed plain server_up args [] true (variables_after run) (snd run))
    as Hp by loop_ran.
  exact (proj1 (proj2 (proj2
           (proj1 (inference_needs_a_model_and_one_input plain server_up args [])
              true _ _ Hp eq_refl)))
           eq_refl eq_refl).
Defined.

Lemma prompt_and_message_after_unreachable_url :
  chosen true
    [ov_string "serverURL"; ov_string "http://10.0.0.7:11434";
     ov_string "model"; ov_string "llama3";
     ov_string "prompt"; ov_string "hi";
     ov_string "message"; history_cell [("hi", "")]]
  = Inference /\
  __ollama__ plain unreachable_at_url
    [ov_string "serverURL"; ov_string "http://10.0.0.7:11434";
     ov_string "model"; ov_string "llama3";
     ov_string "prompt"; ov_string "hi";
     ov_string "message"; history_cell [("hi", "")]] 2 []
  = (Value (ov_bool false, ov_bool true),
     [is_running; setServerURL "http://10.0.0.7:11434"; is_running]).
Proof. split; vm_compute; reflexivity. Qed.

(** ** C5 *)

Lemma odd_arguments_are_an_error :
  stopped server_up
    (Error "__ollama__: input arguments must be in Name-Value pairs.")
    [is_running] /\
  exists t, [is_running] = [] ++ t /\ forallb parsing_call t = true.
Proof.
  exact (malformed_arguments plain server_up [ov_string "model"] 2 []
           (Error "__ollama__: input arguments must be in Name-Value pairs.")
           [is_running] (or_introl eq_refl) eq_refl).
Defined.

Lemma empty_value_after_unreachable_url :
  __ollama__ plain unreachable_at_url
    [ov_string "serverURL"; ov_string "http://10.0.0.7:11434";
     ov_string "model"; ov_string ""] 2 []
  = (Value (ov_bool false, ov_bool true),
     [is_running; setServerURL "http://10.0.0.7:11434"; is_running]).
Proof. vm_compute. reflexivity. Qed.

(** ** C6 *)


(** ** C8 *)

Lemma unknown_name_is_skipped :
  __ollama__ plain server_up
    ([] ++ ov_string "verbose" :: ov_bool true
     :: [ov_string "Query"; ov_string "status"]) 2 []
  = __ollama__ plain server_up
      ([] ++ [ov_string "Query"; ov_string "status"]) 2 [].
Proof.
  exact (unrecognized_pair_is_ignored plain server_up
           "verbose" (ov_bool true) []
           [ov_string "Query"; ov_string "status"] 2 []
           ltac:(discriminate) eq_refl eq_refl eq_refl).
Defined.

Lemma unknown_name_with_empty_value :
  __ollama__ plain server_up
    [ov_string "verbose"; ov_string "";
     ov_string "Query"; ov_string "status"] 2 []
  = (Error "__ollama__: input arguments cannot be empty.", [is_running]) /\
  __ollama__ plain server_up [ov_string "Query"; ov_string "status"] 2 []
  = (Value (ov_bool true, ov_bool false), [is_running]).
Proof. split; vm_compute; reflexivity. Qed.

(** ** C9 *)



(** ** C10 *)

Lemma absent_model_when_server_was_reached_by_url :
  __ollama__ plain reachable_at_url
    [ov_string "serverURL"; ov_string "http://10.0.0.7:11434";
     ov_string "modelInfo"; ov_string "phi"] 2 []
  = (Value (ov_undef, ov_bool true),
     [is_running; setServerURL "http://10.0.0.7:11434"; is_running;
      list_models]).
Proof.
  set (args := [ov_string "serverURL"; ov_string "http://10.0.0.7:11434";
                ov_string "modelInfo"; ov_string "phi"]).
  set (run := parse_args plain reachable_at_url args (initial false)
                [is_running]).
  assert (parsed plain reachable_at_url args [] false
            (variables_after run) (snd run))
    as Hp by loop_ran.
  assert (~ In "phi" ["llama3"; "mistral"]) as Hn
    by (intros [H|[H|[]]]; discriminate H).
  exact (absent_model_information plain reachable_at_url args [] false _ _
           "phi" ["llama3"; "mistral"] Hp eq_refl eq_refl eq_refl Hn).
Defined.

(** The same two requests on paths that assign the error flag: the model
    is listed, or the server answered the probe made on entry. *)
Lemma listed_model_when_server_was_reached_by_url :
  __ollama__ plain reachable_at_url
    [ov_string "serverURL"; ov_string "http://10.0.0.7:11434";
     ov_string "modelInfo"; ov_string "llama3"] 2 []
  = (Value (ov_string "{}", ov_bool false),
     [is_running; setServerURL "http://10.0.0.7:11434"; is_running;
      list_models; show_model_info "llama3"]).
Proof. vm_compute. reflexivity. Qed.

Lemma absent_model_when_server_was_up :
  __ollama__ plain server_up [ov_string "modelInfo"; ov_string "phi"] 2 []
  = (Value (ov_undef, ov_bool false), [is_running; list_models]).
Proof. vm_compute. reflexivity. Qed.

(** ** C7 *)

Lemma two_pixels_are_encoded :
  fig2base64 plain screen [ov_double 1 1 [1%float]] 1
  = host_ok
      [ov_string
         (string_of_list_byte
            [Byte.x01; Byte.x03; Byte.x05; Byte.x02; Byte.x04; Byte.x06])].
Proof.
  exact (proj2 (proj2
           (fig2base64_encodes_the_snapshot plain screen
              (ov_double 1 1 [1%float]) 1%float tt two_pixels 1
              eq_refl eq_refl eq_refl eq_refl eq_refl eq_refl))).
Defined.

(* ================================================================== *)
(** * More properties on concrete calls *)
(* ================================================================== *)

Lemma last_model_and_default_system_message :
  exists r,
    __ollama__ plain server_up
      [ov_string "model"; ov_string "phi";
       ov_string "model"; ov_string "llama3";
       ov_string "prompt"; ov_string "hi";
       ov_string "systemMessage"; ov_string "default"] 2 []
    = (r, [is_running; generate "llama3" "hi" "false" "" [] []]).
Proof.
  set (args := [ov_string "model"; ov_string "phi";
                ov_string "model"; ov_string "llama3";
                ov_string "prompt"; ov_string "hi";
                ov_string "systemMessage"; ov_string "default"]).
  set (run := parse_args plain server_up args (initial true) [is_running]).
  assert (parsed plain server_up args [] true (variables_after run) (snd run))
    as Hp by loop_ran.
  exact (proj1 (proj2 (proj2 (proj2 (proj2
           (inference_request_carries_the_last_values plain server_up
              args [] true _ _ Hp)))))
           eq_refl eq_refl eq_refl).
Defined.

Lemma both_listings_are_an_error :
  stopped server_up
    (Error "__ollama__: specify either 'listModels' or 'listRunningModels'.")
    [is_running] /\
  exists t, [is_running] = [] ++ t /\ forallb parsing_call t = true.
Proof.
  exact (one_listing_parameter plain server_up
           [ov_string "listModels"; ov_string "json";
            ov_string "listRunningModels"; ov_string "json"] 2 []
           (Error "__ollama__: specify either 'listModels' or 'listRunningModels'.")
           [is_running] eq_refl eq_refl eq_refl).
Defined.

Lemma file_and_base64_are_an_error :
  stopped server_up
    (Error "__ollama__: specify either 'imageFile' or 'imageBase64'.")
    [is_running; image_from_file "a.png"; image_from_base64_string "QUJD"] /\
  exists t,
    [is_running; image_from_file "a.png"; image_from_base64_string "QUJD"]
    = [] ++ t /\
    forallb parsing_call t = true.
Proof.
  exact (one_image_parameter plain server_up
           [ov_string "imageFile"; ov_string "a.png";
            ov_string "imageBase64"; ov_string "QUJD"] 2 []
           (Error "__ollama__: specify either 'imageFile' or 'imageBase64'.")
           [is_running; image_from_file "a.png";
            image_from_base64_string "QUJD"]
           ltac:(cbn; lia) eq_refl).
Defined.

Lemma health_query_is_an_error :
  exists msg,
    __ollama__ plain server_up
      ([ov_string "model"; ov_string "llama3"]
       ++ ov_string "Query" :: ov_string "health" :: []) 2 []
    = (Error msg, [is_running]).
Proof.
  set (pre := [ov_string "model"; ov_string "llama3"]).
  set (run := parse_args plain server_up pre (initial true) [is_running]).
  assert (parsed plain server_up pre [] true (variables_after run) (snd run))
    as Hp by loop_ran.
  exact (unknown_keyword_is_an_error plain server_up
           "Query" ["status"; "version"] "health" pre [] [] true _ _
           (or_introl eq_refl) eq_refl Hp eq_refl).
Defined.

Lemma second_copy_pair_is_requested :
  exists r,
    __ollama__ plain server_up
      [ov_string "copyModel"; ov_cell 1 2 [ov_string "a"; ov_string "b"];
       ov_string "copyModel"; ov_cell 1 2 [ov_string "c"; ov_string "d"]] 2 []
    = (r, [is_running; copy_model "c" "d"]).
Proof.
  set (args := [ov_string "copyModel";
                ov_cell 1 2 [ov_string "a"; ov_string "b"];
                ov_string "copyModel";
                ov_cell 1 2 [ov_string "c"; ov_string "d"]]).
  set (run := parse_args plain server_up args (initial true) [is_running]).
  assert (parsed plain server_up args [] true (variables_after run) (snd run))
    as Hp by loop_ran.
  exact (management_request_names_the_last_model plain server_up
           args [] true _ _ "copyModel"
           (ov_cell 1 2 [ov_string "c"; ov_string "d"]) (copy_model "c" "d")
           Hp eq_refl eq_refl eq_refl eq_refl eq_refl).
Defined.

Lemma pull_returns_the_answer :
  __ollama__ plain server_up [ov_string "pullModel"; ov_string "llama3"] 2 []
  = (Value (ov_bool true, ov_bool false), [is_running; pull_model "llama3"]).
Proof.
  set (args := [ov_string "pullModel"; ov_string "llama3"]).
  set (run := parse_args plain server_up args (initial true) [is_running]).
  assert (parsed plain server_up args [] true (variables_after run) (snd run))
    as Hp by loop_ran.
  exact (proj1 (proj2
           (results_of_handled_management plain server_up args [] true _ _ Hp))
           true eq_refl eq_refl).
Defined.

Lemma cellstr_wins_over_a_later_json :
  __ollama__ plain server_up
    [ov_string "listModels"; ov_string "json";
     ov_string "listModels"; ov_string "cellstr";
     ov_string "listModels"; ov_string "json"] 2 []
  = (Value (ov_cell 2 1 [ov_string "llama3"; ov_string "mistral"],
            ov_bool false),
     [is_running; list_models]).
Proof.
  set (args := [ov_string "listModels"; ov_string "json";
                ov_string "listModels"; ov_string "cellstr";
                ov_string "listModels"; ov_string "json"]).
  set (run := parse_args plain server_up args (initial true) [is_running]).
  assert (parsed plain server_up args [] true (variables_after run) (snd run))
    as Hp by loop_ran.
  exact (proj1 (listing_format plain server_up args [] true _ _ Hp)
           ["llama3"; "mistral"] eq_refl eq_refl eq_refl).
Defined.

Lemma version_request_was_parsed :
  2%Z = 2%Z /\
  Nat.even (List.length [ov_string "Query"; ov_string "version"]) = true /\
  malformed [ov_string "Query"; ov_string "version"] = false /\
  exists entry s h,
    parsed plain server_up [ov_string "Query"; ov_string "version"] []
      entry s h.
Proof.
  exact (operations_only_after_parsing plain server_up
           [ov_string "Query"; ov_string "version"] 2 []
           (Value (ov_string "0.9.0", ov_bool false))
           [is_running; get_version] eq_refl eq_refl).
Defined.

Lemma temperature_is_forwarded_and_verbose_is_not :
  options_get "temperature"
    (options
       (variables_after
          (parse_args plain server_up
             [ov_string "options";
              ov_struct 1 1 [[("temperature", ov_double 1 1 [0.5%float]);
                              ("verbose", ov_bool true)]]]
             (initial true) [is_running])))
  = Some (opt_double 0.5%float) /\
  options_get "verbose"
    (options
       (variables_after
          (parse_args plain server_up
             [ov_string "options";
              ov_struct 1 1 [[("temperature", ov_double 1 1 [0.5%float]);
                              ("verbose", ov_bool true)]]]
             (initial true) [is_running])))
  = None.
Proof.
  set (args := [ov_string "options";
                ov_struct 1 1 [[("temperature", ov_double 1 1 [0.5%float]);
                                ("verbose", ov_bool true)]]]).
  set (run := parse_args plain server_up args (initial true) [is_running]).
  assert (parsed plain server_up args [] true (variables_after run) (snd run))
    as Hp by loop_ran.
  split.
  - exact (proj1 (options_are_forwarded_by_field plain server_up
                    args [] true _ _ Hp "temperature")).
  - exact (proj2 (options_are_forwarded_by_field plain server_up
                    args [] true _ _ Hp "verbose") eq_refl).
Defined.

Lemma two_turns_are_three_messages :
  exists r,
    __ollama__ plain server_up
      ([ov_string "model"; ov_string "llama3"]
       ++ [ov_string "message"; history_cell [("hi", ""); ("more", "hello")]])
      2 []
    = (r, [is_running;
           chat "llama3"
             [mkMessage "user" "hi" []; mkMessage "user" "more" [];
              mkMessage "assistant" "hello" []]
             "false" "" []]).
Proof.
  set (pre := [ov_string "model"; ov_string "llama3"]).
  set (run := parse_args plain server_up pre (initial true) [is_running]).
  assert (parsed plain server_up pre [] true (variables_after run) (snd run))
    as Hp by loop_ran.
  exact (proj2 (chat_history_becomes_messages plain server_up pre [] true _ _
                  [("hi", ""); ("more", "hello")] Hp eq_refl
                  ltac:(discriminate))
           eq_refl eq_refl).
Defined.

Lemma two_files_are_two_loads :
  parsed plain server_up
    ([ov_string "model"; ov_string "llama3"]
     ++ [ov_string "imageFile";
         ov_cell 1 2 (map ov_string ["a.png"; "b.png"])])
    [] true
    (set_has_images true
       (set_images ["a.png"; "b.png"]
          (variables_after
             (parse_args plain server_up
                [ov_string "model"; ov_string "llama3"]
                (initial true) [is_running]))))
    ([is_running] ++ map (image_call false) ["a.png"; "b.png"]).
Proof.
  set (pre := [ov_string "model"; ov_string "llama3"]).
  set (run := parse_args plain server_up pre (initial true) [is_running]).
  assert (parsed plain server_up pre [] true (variables_after run) (snd run))
    as Hp by loop_ran.
  exact (proj1 (images_are_loaded_in_order plain server_up pre [] true _ _
                  false Hp eq_refl)
           1 2 ["a.png"; "b.png"] ["a.png"; "b.png"]
           ltac:(discriminate) eq_refl eq_refl).
Defined.

Lemma two_addresses_are_two_probes :
  exists t,
    [is_running; setServerURL "http://10.0.0.7:11434"; is_running;
     setReadTimeout 30%float; setServerURL "http://10.0.0.8:11434"; is_running]
    = [] ++ is_running :: t /\
    filter probing t
    = flat_map (fun url => [setServerURL url; is_running])
        ["http://10.0.0.7:11434"; "http://10.0.0.8:11434"].
Proof.
  set (args := [ov_string "serverURL"; ov_string "http://10.0.0.7:11434";
                ov_string "readTimeout"; ov_double 1 1 [30%float];
                ov_string "serverURL"; ov_string "http://10.0.0.8:11434"]).
  set (run := parse_args plain server_up args (initial true) [is_running]).
  assert (parsed plain server_up args [] true (variables_after run) (snd run))
    as Hp by loop_ran.
  exact (addresses_are_set_in_order plain server_up args [] true _ _ Hp).
Defined.

Lemma returned_snapshot_is_of_a_figure :
  exists hfig h go data png,
    [ov_double 1 1 [1%float]] = [hfig] /\
    double_value plain hfig = host_ok h /\
    get_object screen h = Some go /\
    isa screen go "figure" = true /\
    uint8_array_value screen (get_pixels screen go) = host_ok data /\
    fpng_encode_image_to_memory screen
      (map_image data (dim1 data) (dim2 data))
      (to_uint32 (dim2 data)) (to_uint32 (dim1 data)) 3 = Some png /\
    [ov_string
       (string_of_list_byte
          [Byte.x01; Byte.x03; Byte.x05; Byte.x02; Byte.x04; Byte.x06]);
     ov_undef]
    = ov_string (Base64_Encode screen (string_of_list_byte png))
      :: repeat ov_undef (pred 2).
Proof.
  exact (fig2base64_returns_for_figures_only plain screen
           [ov_double 1 1 [1%float]] 2
           [ov_string
              (string_of_list_byte
                 [Byte.x01; Byte.x03; Byte.x05; Byte.x02; Byte.x04; Byte.x06]);
            ov_undef]
           eq_refl).
Defined.

Lemma alpha_of_two_pixels_is_ignored :
  map_image two_pixels 1 2 = map_image two_pixels_with_alpha 1 2.
Proof.
  apply (further_channels_are_ignored two_pixels two_pixels_with_alpha 1 2).
  intros r c k Hr Hc Hk.
  destruct r as [|r]; [|lia].
  destruct c as [|[|c]]; [| |lia];
    (destruct k as [|[|[|k]]]; [reflexivity|reflexivity|reflexivity|lia]).
Defined.

Lemma prompt_returns_the_response :
  __ollama__ plain server_up
    [ov_string "model"; ov_string "llama3";
     ov_string "think"; ov_string "true";
     ov_string "prompt"; ov_string "hi"] 2 []
  = (Value (ov_string "{}", ov_bool false),
     [is_running; generate "llama3" "hi" "true" "" [] []]).
Proof.
  set (args := [ov_string "model"; ov_string "llama3";
                ov_string "think"; ov_string "true";
                ov_string "prompt"; ov_string "hi"]).
  set (run := parse_args plain server_up args (initial true) [is_running]).
  assert (parsed plain server_up args [] true (variables_after run) (snd run))
    as Hp by loop_ran.
  exact (proj1 (inference_returns_the_response plain server_up args [] true
                  _ _ Hp eq_refl eq_refl)
           (mkResponse "{}") eq_refl eq_refl).
Defined.

Lemma pull_exception_is_returned :
  __ollama__ plain refusing [ov_string "pullModel"; ov_string "llama3"] 2 []
  = (Value (ov_string "refused", ov_bool true),
     [is_running; pull_model "llama3"]).
Proof.
  set (args := [ov_string "pullModel"; ov_string "llama3"]).
  set (run := parse_args plain refusing args (initial true) [is_running]).
  assert (parsed plain refusing args [] true (variables_after run) (snd run))
    as Hp by loop_ran.
  exact (proj1 (exceptions_are_stringified plain refusing args [] true _ _ Hp)
           (pull_model "llama3") "refused" eq_refl eq_refl eq_refl).
Defined.
